(** * SLT data collection: the session state machine of [collect_data.py]

    A shallow embedding of the key handling and of the capture loop of
    [main], with the file system, the console and the display made explicit,
    followed by the properties of the save / undo / resume bookkeeping.

    Conventions of the embedding.
    - A Python [str] is a [string] whose characters are code points below 256.
    - A Python [int] is a [Z].
    - A [Path] below [DATA_DIR] is the pair of its label directory and its
      file name; path comparison is the POSIX one (by code point).
    - The interpreter's cap on the length of decimal literals accepted by
      [int()] is not modelled. *)

From Stdlib Require Import ZArith List Ascii String Bool Lia Permutation.
From stdpp Require Import base tactics option list gmap strings pretty sorting.

Local Open Scope Z_scope.

(** ** Python string built-ins used by the script *)

Module Py.

Definition ord (c : ascii) : Z := Z.of_N (N_of_ascii c).

(** [chr(k)] for [0 <= k < 256]. *)
Definition chr (k : Z) : ascii := ascii_of_N (Z.to_N k).

Definition Z_in (k : Z) (ks : list Z) : bool := existsb (Z.eqb k) ks.

(** [str.isspace] on one character (code points below 256). *)
Definition isspace_char (c : ascii) : bool :=
  Z_in (ord c) [9; 10; 11; 12; 13; 28; 29; 30; 31; 32; 133; 160].

(** The ASCII decimal digits, the only characters [int()] reads here. *)
Definition isdecimal_char (c : ascii) : bool :=
  (48 <=? ord c) && (ord c <=? 57).

(** [str.isdigit] on one character: the decimal digits and the three
    superscript digits of Latin-1, which [int()] rejects. *)
Definition isdigit_char (c : ascii) : bool :=
  isdecimal_char c || Z_in (ord c) [178; 179; 185].

Fixpoint all_chars (p : ascii -> bool) (s : string) : bool :=
  match s with
  | EmptyString => true
  | String c r => p c && all_chars p r
  end.

Definition nonempty (s : string) : bool :=
  match s with EmptyString => false | String _ _ => true end.

(** [s.isdigit()]. *)
Definition isdigit (s : string) : bool := nonempty s && all_chars isdigit_char s.

Definition isdecimal (s : string) : bool := nonempty s && all_chars isdecimal_char s.

Fixpoint lstrip (s : string) : string :=
  match s with
  | EmptyString => EmptyString
  | String c r => if isspace_char c then lstrip r else s
  end.

(** [s.strip()]. *)
Definition strip (s : string) : string :=
  String.rev (lstrip (String.rev (lstrip s))).

Fixpoint int_digits (acc : Z) (s : string) : option Z :=
  match s with
  | EmptyString => Some acc
  | String c r =>
      if isdecimal_char c then int_digits (10 * acc + (ord c - 48)) r else None
  end.

(** [int(s)] for a string that passed [isdigit]; [None] is ValueError. *)
Definition int (s : string) : option Z :=
  if nonempty s then int_digits 0 s else None.

(** [str(n)] and the [{n}] of an f-string. *)
Definition str (n : Z) : string := pretty n.

(** [s[:-1]]. *)
Fixpoint drop_last (s : string) : string :=
  match s with
  | EmptyString => EmptyString
  | String c EmptyString => EmptyString
  | String c r => String c (drop_last r)
  end.

(** [s.split(sep)] for a one-character separator. *)
Fixpoint split (sep : ascii) (s : string) : list string :=
  match s with
  | EmptyString => [EmptyString]
  | String c r =>
      if Ascii.eqb c sep then EmptyString :: split sep r
      else match split sep r with
           | w :: ws => String c w :: ws
           | [] => [String c EmptyString]
           end
  end.

(** [xs[-1]] of a list of strings that is never empty. *)
Definition last_item (xs : list string) : string := List.last xs EmptyString.

(** [s.rfind(ch)]: index of the last occurrence. *)
Fixpoint rfind (ch : ascii) (s : string) : option nat :=
  match s with
  | EmptyString => None
  | String c r =>
      match rfind ch r with
      | Some i => Some (S i)
      | None => if Ascii.eqb c ch then Some O else None
      end
  end.

(** [PurePath.stem]: the name without its last suffix. *)
Definition stem (name : string) : string :=
  match rfind "."%char name with
  | Some i =>
      if (0 <? i)%nat && (i <? String.length name - 1)%nat
      then String.substring 0 i name else name
  | None => name
  end.

Fixpoint strip_prefix (p s : string) : option string :=
  match p, s with
  | EmptyString, _ => Some s
  | String a p', String b s' =>
      if Ascii.eqb a b then strip_prefix p' s' else None
  | String _ _, EmptyString => None
  end.

Fixpoint endswith (suf s : string) : bool :=
  String.eqb s suf ||
  match s with
  | EmptyString => false
  | String _ r => endswith suf r
  end.

Fixpoint strip_suffix (suf s : string) : option string :=
  if String.eqb s suf then Some EmptyString
  else match s with
       | EmptyString => None
       | String c r => String c <$> strip_suffix suf r
       end.

End Py.

(** ** Data model *)

(** A file below [DATA_DIR]: [DATA_DIR / parent / name]. *)
Record Path := { parent : string; name : string }.

Global Instance Path_eq_dec : EqDecision Path.
Proof. solve_decision. Defined.

Global Instance Path_countable : Countable Path :=
  inj_countable' (λ p, (parent p, name p)) (λ dn, {| parent := dn.1; name := dn.2 |})
                 (λ p, match p with Build_Path _ _ => eq_refl end).

(** Order of [sorted()] on paths: part by part, each part by code point. *)
Definition path_le (p q : Path) : Prop :=
  if decide (parent p = parent q) then String.le (name p) (name q)
  else String.le (parent p) (parent q).

Global Instance path_le_dec : RelDecision path_le.
Proof. intros p q. unfold path_le. destruct (decide (parent p = parent q)); apply _. Defined.

(** The five modes, named as the constants of the script. *)
Inductive Mode :=
| STATE_INPUT_LABEL
| STATE_INPUT_COUNT
| STATE_IDLE
| STATE_RECORDING
| STATE_REVIEW.

Global Instance Mode_eq_dec : EqDecision Mode.
Proof. solve_decision. Defined.

(** The uncaught exceptions the key handling can raise. *)
Inductive Exn :=
| ValueError_max_empty
| ValueError_int_literal (s : string).

(** File-system requests, in the order they are issued. *)
Inductive FsOp :=
| OpMkdir (d : string)
| OpGlob (d pattern : string)
| OpExists (p : Path)
| OpUnlink (p : Path)
| OpWriterOpen (p : Path)
| OpWriterWrite (p : Path)
| OpWriterRelease (p : Path).

(** Key codes compared against in the handler. *)
Definition KEY_ENTER : Z := 13.
Definition KEY_SPACE : Z := Py.ord " ".
Definition KEY_q : Z := Py.ord "q".
Definition KEY_Q : Z := Py.ord "Q".
Definition KEY_u : Z := Py.ord "u".
Definition KEY_U : Z := Py.ord "U".
Definition KEY_o : Z := Py.ord "o".
Definition KEY_O : Z := Py.ord "O".

Section Model.

Context {Frame Time : Type}.

(** The local variables of [main] that survive an iteration. *)
Record Session := {
  state : Mode;
  text_buf : string;
  label : string;
  target_count : Z;
  saved_count : Z;
  saved_files : list Path;
  raw_frames : list Frame;
  rec_start : Time;
  review_frame : option Frame
}.

(** What lies outside the process: clip files (each the frames written
    to it), label directories, the console, the requests made to the
    file system and the frames shown in the window. *)
Record World := {
  files : gmap Path (list Frame);
  dirs : gset string;
  stdout : list string;
  syscalls : list FsOp;
  screen : list Frame
}.

Inductive Outcome :=
| Continue (s : Session) (w : World)
| Break (s : Session) (w : World)
| Raise (e : Exn) (w : World).

(** *** Field updates *)

Definition set_state (m : Mode) (s : Session) : Session :=
  {| state := m; text_buf := text_buf s; label := label s;
     target_count := target_count s; saved_count := saved_count s;
     saved_files := saved_files s; raw_frames := raw_frames s;
     rec_start := rec_start s; review_frame := review_frame s |}.

Definition set_text_buf (t : string) (s : Session) : Session :=
  {| state := state s; text_buf := t; label := label s;
     target_count := target_count s; saved_count := saved_count s;
     saved_files := saved_files s; raw_frames := raw_frames s;
     rec_start := rec_start s; review_frame := review_frame s |}.

Definition set_label (l : string) (s : Session) : Session :=
  {| state := state s; text_buf := text_buf s; label := l;
     target_count := target_count s; saved_count := saved_count s;
     saved_files := saved_files s; raw_frames := raw_frames s;
     rec_start := rec_start s; review_frame := review_frame s |}.

Definition set_target_count (n : Z) (s : Session) : Session :=
  {| state := state s; text_buf := text_buf s; label := label s;
     target_count := n; saved_count := saved_count s;
     saved_files := saved_files s; raw_frames := raw_frames s;
     rec_start := rec_start s; review_frame := review_frame s |}.

Definition set_saved_count (n : Z) (s : Session) : Session :=
  {| state := state s; text_buf := text_buf s; label := label s;
     target_count := target_count s; saved_count := n;
     saved_files := saved_files s; raw_frames := raw_frames s;
     rec_start := rec_start s; review_frame := review_frame s |}.

Definition set_saved_files (ps : list Path) (s : Session) : Session :=
  {| state := state s; text_buf := text_buf s; label := label s;
     target_count := target_count s; saved_count := saved_count s;
     saved_files := ps; raw_frames := raw_frames s;
     rec_start := rec_start s; review_frame := review_frame s |}.

Definition set_raw_frames (fs : list Frame) (s : Session) : Session :=
  {| state := state s; text_buf := text_buf s; label := label s;
     target_count := target_count s; saved_count := saved_count s;
     saved_files := saved_files s; raw_frames := fs;
     rec_start := rec_start s; review_frame := review_frame s |}.

Definition set_rec_start (t : Time) (s : Session) : Session :=
  {| state := state s; text_buf := text_buf s; label := label s;
     target_count := target_count s; saved_count := saved_count s;
     saved_files := saved_files s; raw_frames := raw_frames s;
     rec_start := t; review_frame := review_frame s |}.

Definition set_review_frame (f : option Frame) (s : Session) : Session :=
  {| state := state s; text_buf := text_buf s; label := label s;
     target_count := target_count s; saved_count := saved_count s;
     saved_files := saved_files s; raw_frames := raw_frames s;
     rec_start := rec_start s; review_frame := f |}.

Definition set_files (m : gmap Path (list Frame)) (w : World) : World :=
  {| files := m; dirs := dirs w; stdout := stdout w;
     syscalls := syscalls w; screen := screen w |}.

(** *** Console and file system *)

(** [print(line)]. *)
Definition print (line : string) (w : World) : World :=
  {| files := files w; dirs := dirs w; stdout := stdout w ++ [line];
     syscalls := syscalls w; screen := screen w |}.

Definition request (op : FsOp) (w : World) : World :=
  {| files := files w; dirs := dirs w; stdout := stdout w;
     syscalls := syscalls w ++ [op]; screen := screen w |}.

(** [cv2.imshow(WIN_NAME, frame)]. *)
Definition imshow (f : Frame) (w : World) : World :=
  {| files := files w; dirs := dirs w; stdout := stdout w;
     syscalls := syscalls w; screen := screen w ++ [f] |}.

(** [label_dir.mkdir(parents=True, exist_ok=True)]. *)
Definition mkdir (d : string) (w : World) : World :=
  request (OpMkdir d)
    {| files := files w; dirs := {[ d ]} ∪ dirs w; stdout := stdout w;
       syscalls := syscalls w; screen := screen w |}.

(** [p.exists()]. *)
Definition path_exists (p : Path) (w : World) : bool * World :=
  (bool_decide (is_Some (files w !! p)), request (OpExists p) w).

(** [p.unlink()] of a file that exists. *)
Definition unlink (p : Path) (w : World) : World :=
  request (OpUnlink p) (set_files (delete p (files w)) w).

(** [cv2.VideoWriter(str(fname), ...)]: the file is created empty, or
    truncated when it is there already. *)
Definition writer_open (p : Path) (w : World) : World :=
  request (OpWriterOpen p) (set_files (<[p := []]> (files w)) w).

(** [writer.write(f)]. *)
Definition writer_write (p : Path) (w : World) (f : Frame) : World :=
  request (OpWriterWrite p) (set_files (alter (λ fs, fs ++ [f]) p (files w)) w).

(** [writer.release()]. *)
Definition writer_release (p : Path) (w : World) : World :=
  request (OpWriterRelease p) w.

(** Names of the entries of [DATA_DIR / d]. *)
Definition listdir (w : World) (d : string) : list string :=
  name <$> filter (λ p, parent p = d) (map_to_list (files w)).*1.

(** A name matched by the pattern [f"{label}_*.mp4"], for a label
    without pattern characters ([*], [?], [[]) or path separators. *)
Definition clip_pattern (l : string) (nm : string) : bool :=
  match Py.strip_prefix (l +:+ "_") nm with
  | Some rest => Py.endswith ".mp4" rest
  | None => false
  end.

(** The value of [sorted(label_dir.glob(f"{label}_*.mp4"))]. *)
Definition existing_clips (l : string) (w : World) : list Path :=
  merge_sort path_le
    (Build_Path l <$> filter (λ nm, clip_pattern l nm = true) (listdir w l)).

Definition sorted_glob (l : string) (w : World) : list Path * World :=
  (existing_clips l w, request (OpGlob l (l +:+ "_*.mp4")) w).

(** [p.stem.split("_")[-1]]. *)
Definition suffix_of (p : Path) : string :=
  Py.last_item (Py.split "_" (Py.stem (name p))).

(** The generator handed to [max]: the integers of the all-digit
    suffixes, in order; [inr] when [int()] raises. *)
Fixpoint suffix_numbers (ps : list Path) : list Z + Exn :=
  match ps with
  | [] => inl []
  | p :: r =>
      if Py.isdigit (suffix_of p) then
        match Py.int (suffix_of p) with
        | Some n =>
            match suffix_numbers r with
            | inl ns => inl (n :: ns)
            | inr e => inr e
            end
        | None => inr (ValueError_int_literal (suffix_of p))
        end
      else suffix_numbers r
  end.

(** [max(xs)]: ValueError on an empty sequence. *)
Definition py_max (xs : list Z) : Z + Exn :=
  match xs with
  | [] => inr ValueError_max_empty
  | x :: r => inl (fold_left Z.max r x)
  end.

Definition last_num (existing : list Path) : Z + Exn :=
  match suffix_numbers existing with
  | inl ns => py_max ns
  | inr e => inr e
  end.

(** *** Key handling *)

(** [f"{label}_{n}.mp4"]. *)
Definition clip_name (l : string) (n : Z) : string :=
  l +:+ "_" +:+ Py.str n +:+ ".mp4".

(** [xs.pop()] on a list that grows at its end. *)
Definition pop {A} (xs : list A) : option (A * list A) :=
  match rev xs with
  | [] => None
  | x :: r => Some (x, rev r)
  end.

(** Enter in label entry, the text not blank: adopt the label and resume
    from the clips already in its directory. *)
Definition confirm_label (s : Session) (w : World) : Outcome :=
  let l := Py.strip (text_buf s) in
  let s := set_label l s in
  let s := set_text_buf "" s in
  let s := set_saved_count 0 s in
  let s := set_saved_files [] s in
  let w := mkdir l w in
  let '(existing, w) := sorted_glob l w in
  match existing with
  | [] => Continue (set_state STATE_INPUT_COUNT s) w
  | _ :: _ =>
      match last_num existing with
      | inr e => Raise e w
      | inl n =>
          let s := set_saved_count n s in
          let s := set_saved_files (saved_files s ++ existing) s in
          let w := print ("  Found " +:+ Py.str (Z.of_nat (length existing))
                          +:+ " existing clips for '" +:+ l
                          +:+ "', continuing from " +:+ l +:+ "_"
                          +:+ Py.str (saved_count s + 1)) w in
          Continue (set_state STATE_INPUT_COUNT s) w
      end
  end.

(** Enter in count entry, the text all digits. *)
Definition confirm_count (s : Session) (w : World) : Outcome :=
  match Py.int (Py.strip (text_buf s)) with
  | None => Raise (ValueError_int_literal (Py.strip (text_buf s))) w
  | Some n =>
      let s := set_target_count n s in
      let s := if target_count s <? 1 then set_target_count 1 s else s in
      let s := set_text_buf "" s in
      let s := set_state STATE_IDLE s in
      Continue s (print ("  Recording '" +:+ label s +:+ "': "
                         +:+ Py.str (saved_count s) +:+ "/"
                         +:+ Py.str (target_count s) +:+ " done") w)
  end.

(** The branch [state in (STATE_INPUT_LABEL, STATE_INPUT_COUNT)]. *)
Definition text_input_key (key : Z) (s : Session) (w : World) : Outcome :=
  if key =? KEY_ENTER then
    if bool_decide (state s = STATE_INPUT_LABEL) && Py.nonempty (Py.strip (text_buf s))
    then confirm_label s w
    else if bool_decide (state s = STATE_INPUT_COUNT) && Py.isdigit (Py.strip (text_buf s))
    then confirm_count s w
    else Continue s w
  else if Py.Z_in key [8; 127] then
    Continue (set_text_buf (Py.drop_last (text_buf s)) s) w
  else if (32 <=? key) && (key <? 127) && negb (key =? KEY_SPACE) then
    let ch := String (Py.chr key) EmptyString in
    if bool_decide (state s = STATE_INPUT_COUNT) then
      if Py.isdigit ch then Continue (set_text_buf (text_buf s +:+ ch) s) w
      else Continue s w
    else Continue (set_text_buf (text_buf s +:+ ch) s) w
  else Continue s w.

(** U in idle: undo the most recent clip. *)
Definition undo (s : Session) (w : World) : Outcome :=
  match pop (saved_files s) with
  | Some (last, rest) =>
      let s := set_saved_files rest s in
      let '(there, w) := path_exists last w in
      if there then
        let w := unlink last w in
        let s := set_saved_count (saved_count s - 1) s in
        Continue s (print ("  Undone: deleted " +:+ name last +:+ " ("
                           +:+ Py.str (saved_count s) +:+ "/"
                           +:+ Py.str (target_count s) +:+ ")") w)
      else
        Continue s (print ("  File already gone: " +:+ name last) w)
  | None => Continue s (print "  Nothing to undo" w)
  end.

(** The branch [state == STATE_IDLE]. *)
Definition idle_key (key : Z) (now : Time) (s : Session) (w : World) : Outcome :=
  if key =? KEY_SPACE then
    let s := set_raw_frames [] s in
    let s := set_rec_start now s in
    let s := set_state STATE_RECORDING s in
    Continue s (print ("  REC started for " +:+ label s +:+ "_"
                       +:+ Py.str (saved_count s + 1)) w)
  else if Py.Z_in key [KEY_u; KEY_U] then undo s w
  else Continue s w.

(** The branch [state == STATE_RECORDING]; [frame] is the frame on
    display. *)
Definition recording_key (key : Z) (frame : Frame) (s : Session) (w : World) : Outcome :=
  if key =? KEY_SPACE then
    let s := set_state STATE_REVIEW s in
    let s := set_review_frame (Some frame) s in
    Continue s (print ("  REC stopped: " +:+ Py.str (Z.of_nat (length (raw_frames s)))
                       +:+ " frames captured") w)
  else Continue s w.

(** O in review: write the buffered frames to the next clip file. *)
Definition save (s : Session) (w : World) : Outcome :=
  let w := mkdir (label s) w in
  let s := set_saved_count (saved_count s + 1) s in
  let fname := {| parent := label s; name := clip_name (label s) (saved_count s) |} in
  let w := writer_open fname w in
  let w := fold_left (writer_write fname) (raw_frames s) w in
  let w := writer_release fname w in
  let s := set_saved_files (saved_files s ++ [fname]) s in
  let s := set_raw_frames [] s in
  let s := set_review_frame None s in
  let w := print ("  Saved: " +:+ name fname +:+ " (" +:+ Py.str (saved_count s)
                  +:+ "/" +:+ Py.str (target_count s) +:+ ")") w in
  if target_count s <=? saved_count s then
    let w := print ("  All " +:+ Py.str (target_count s) +:+ " clips for '"
                    +:+ label s +:+ "' done!" +:+ String "010"%char EmptyString) w in
    let s := set_text_buf "" s in
    Continue (set_state STATE_INPUT_LABEL s) w
  else Continue (set_state STATE_IDLE s) w.

(** Space in review: drop the buffered frames. *)
Definition discard (s : Session) (w : World) : Outcome :=
  let s := set_raw_frames [] s in
  let s := set_review_frame None s in
  let s := set_state STATE_IDLE s in
  Continue s (print "  Clip discarded" w).

(** The branch [state == STATE_REVIEW]. *)
Definition review_key (key : Z) (s : Session) (w : World) : Outcome :=
  if (key =? KEY_o) || (key =? KEY_O) then save s w
  else if key =? KEY_SPACE then discard s w
  else Continue s w.

(** The key handling of one iteration, for [key = cv2.waitKey(1) & 0xFF]. *)
Definition key_step (key : Z) (frame : Frame) (now : Time)
    (s : Session) (w : World) : Outcome :=
  if (key =? KEY_q) || (key =? KEY_Q) then Break s w
  else match state s with
       | STATE_INPUT_LABEL | STATE_INPUT_COUNT => text_input_key key s w
       | STATE_IDLE => idle_key key now s w
       | STATE_RECORDING => recording_key key frame s w
       | STATE_REVIEW => review_key key s w
       end.

(** *** Vocabulary of the properties *)

(** The clip file the next save writes. *)
Definition next_clip (s : Session) : Path :=
  {| parent := label s; name := clip_name (label s) (saved_count s + 1) |}.

Definition is_undo_key (key : Z) : Prop := key = KEY_u \/ key = KEY_U.
Definition is_save_key (key : Z) : Prop := key = KEY_o \/ key = KEY_O.

Definition in_text_entry (s : Session) : Prop :=
  state s = STATE_INPUT_LABEL \/ state s = STATE_INPUT_COUNT.

(** The bookkeeping equation of the data model. *)
Definition counts_agree (s : Session) : Prop :=
  saved_count s = Z.of_nat (length (saved_files s)).

(** Enter in label entry on a text that is not blank. *)
Definition is_label_confirm (key : Z) (s : Session) : Prop :=
  key = KEY_ENTER /\ state s = STATE_INPUT_LABEL /\
  Py.nonempty (Py.strip (text_buf s)) = true.

(** Undo in idle whose most recent path is not on disk. *)
Definition is_undo_of_missing (key : Z) (s : Session) (w : World) : Prop :=
  state s = STATE_IDLE /\ is_undo_key key /\
  exists last rest, saved_files s = rest ++ [last] /\ files w !! last = None.

(** *** The capture loop *)

Context {Landmarks : Type}.

(** The drawing helpers of the script and the clock arithmetic behind
    them; each takes the frame it draws on and returns it drawn on. The
    colour, scale and opacity arguments are left out: they reach the
    window only. *)
Class Display := {
  draw_landmarks : Frame -> Landmarks -> Frame;
  draw_input_prompt : Frame -> string -> string -> bool -> Frame;
  draw_controls : Frame -> list string -> Frame;
  draw_top_bar : Frame -> string -> Z -> Z -> string -> Frame;
  draw_rec_indicator : Frame -> Time -> Frame;
  draw_dark_bar : Frame -> Z -> Z -> Frame;
  draw_text_centered : Frame -> string -> Z -> Frame;
  cursor_blink : Time -> bool;
  elapsed : Time -> Time -> Time;
  review_caption : nat -> string
}.

(** What one iteration reads from outside: the camera, the detector
    (on the live frame and on the frozen one), the clock and the keyboard. *)
Record Tick := {
  cam_read : option Frame;
  hands_live : list Landmarks;
  hands_review : list Landmarks;
  time_blink : Time;
  time_elapsed : Time;
  time_key : Time;
  wait_key : Z
}.

(** The session before the first iteration; [t0] is [0.0]. *)
Definition initial (t0 : Time) : Session :=
  {| state := STATE_INPUT_LABEL; text_buf := ""; label := "";
     target_count := 0; saved_count := 0; saved_files := [];
     raw_frames := []; rec_start := t0; review_frame := None |}.

(** The drawing of one iteration, with the append to [raw_frames] that
    sits in the recording branch; returns the frame to show. *)
Definition render `{Display} (tk : Tick) (raw frame : Frame) (s : Session)
    : Session * Frame :=
  let cursor := cursor_blink (time_blink tk) in
  match state s with
  | STATE_INPUT_LABEL =>
      let frame := draw_input_prompt frame "Label name:" (text_buf s) cursor in
      (s, draw_controls frame
            ["Type label name, then press ENTER to confirm"; "Q = quit"])
  | STATE_INPUT_COUNT =>
      let frame := draw_input_prompt frame ("Videos for '" +:+ label s +:+ "':")
                     (text_buf s) cursor in
      (s, draw_controls frame
            ["Type number of videos, then press ENTER"; "Q = quit"])
  | STATE_IDLE =>
      let frame := draw_top_bar frame (label s) (saved_count s) (target_count s)
                     "READY" in
      (s, draw_controls frame
            ["SPACE = start recording"; "U = undo last clip"; "Q = quit"])
  | STATE_RECORDING =>
      let s := set_raw_frames (raw_frames s ++ [raw]) s in
      let frame := draw_top_bar frame (label s) (saved_count s) (target_count s)
                     "RECORDING" in
      let frame := draw_rec_indicator frame (elapsed (time_elapsed tk) (rec_start s)) in
      (s, draw_controls frame ["SPACE = stop recording"])
  | STATE_REVIEW =>
      let frame := match review_frame s with
                   | Some rf => fold_left draw_landmarks (hands_review tk) rf
                   | None => frame
                   end in
      let frame := draw_dark_bar frame 0 70 in
      let frame := draw_text_centered frame "Review Clip" 28 in
      let frame := draw_text_centered frame
                     (review_caption (length (raw_frames s))) 55 in
      (s, draw_controls frame
            ["O = save clip"; "SPACE = discard & re-record"; "Q = quit"])
  end.

(** [cv2.waitKey(1) & 0xFF]. *)
Definition pressed (tk : Tick) : Z := Z.land (wait_key tk) 255.

(** One iteration of [while cap.isOpened()]; [flip] is [cv2.flip(_, 1)]. *)
Definition iteration `{Display} (flip : Frame -> Frame) (tk : Tick)
    (s : Session) (w : World) : Outcome :=
  match cam_read tk with
  | None => Break s w
  | Some captured =>
      let frame := flip captured in
      let raw := frame in
      let frame := fold_left draw_landmarks (hands_live tk) frame in
      let '(s, frame) := render tk raw frame s in
      let w := imshow frame w in
      let key := pressed tk in
      key_step key frame (time_key tk) s w
  end.

(** The loop over the iterations the outside world supplies. *)
Fixpoint run `{Display} (flip : Frame -> Frame) (ticks : list Tick)
    (s : Session) (w : World) : Outcome :=
  match ticks with
  | [] => Continue s w
  | tk :: rest =>
      match iteration flip tk s w with
      | Continue s' w' => run flip rest s' w'
      | stopped => stopped
      end
  end.

Definition world_of (o : Outcome) : World :=
  match o with
  | Continue _ w | Break _ w | Raise _ w => w
  end.

(** *** Vocabulary of the overlay property *)

(** What of a session can reach a file: all of it but the clock reading
    and the frozen display frame. *)
Definition persisted (s : Session) :=
  (state s, text_buf s, label s, target_count s, saved_count s,
   saved_files s, raw_frames s).

Definition same_persisted (s1 s2 : Session) : Prop := persisted s1 = persisted s2.

(** The world apart from the window. *)
Definition outside (w : World) := (files w, dirs w, stdout w, syscalls w).

Definition same_outside (w1 w2 : World) : Prop := outside w1 = outside w2.

Definition same_outcome (o1 o2 : Outcome) : Prop :=
  match o1, o2 with
  | Continue s1 w1, Continue s2 w2 => same_persisted s1 s2 /\ same_outside w1 w2
  | Break s1 w1, Break s2 w2 => same_persisted s1 s2 /\ same_outside w1 w2
  | Raise e1 w1, Raise e2 w2 => e1 = e2 /\ same_outside w1 w2
  | _, _ => False
  end.

(** Two iterations that see the same camera frame and the same key; the
    detector and the clock are free to differ. *)
Definition same_capture (t1 t2 : Tick) : Prop :=
  cam_read t1 = cam_read t2 /\ pressed t1 = pressed t2.

(** An iteration that leaves the recording running. *)
Definition keeps_recording (tk : Tick) : Prop :=
  is_Some (cam_read tk) /\
  pressed tk <> KEY_SPACE /\ pressed tk <> KEY_q /\ pressed tk <> KEY_Q.

(** An iteration that leaves the review pending. *)
Definition keeps_reviewing (tk : Tick) : Prop :=
  is_Some (cam_read tk) /\
  pressed tk <> KEY_o /\ pressed tk <> KEY_O /\
  pressed tk <> KEY_SPACE /\ pressed tk <> KEY_q /\ pressed tk <> KEY_Q.

(** The frames the camera delivered over some iterations, in order. *)
Definition captured (ticks : list Tick) : list Frame := omap cam_read ticks.

End Model.

Arguments Session : clear implicits.
Arguments World : clear implicits.
Arguments Outcome : clear implicits.
Arguments Tick : clear implicits.
Arguments Display : clear implicits.

(** ** The resume index in the words of the specification *)

(** Follows the spec's words: the index [n] of a file "named
    [{L}_{n}.mp4]", [n] a non-empty run of decimal digits. *)
Definition named_index (l nm : string) : option Z :=
  match Py.strip_prefix (l +:+ "_") nm with
  | Some rest =>
      match Py.strip_suffix ".mp4" rest with
      | Some ds => if Py.isdecimal ds then Py.int ds else None
      | None => None
      end
  | None => None
  end.



(** ** Vocabulary of the further properties *)

(** A character the text-entry branch can append: code 33..126, the
    quit keys excepted. *)
Definition typable (c : ascii) : bool :=
  (33 <=? Py.ord c) && (Py.ord c <=? 126)
  && negb (Py.ord c =? KEY_q) && negb (Py.ord c =? KEY_Q).

Section ModelMore.

Context {Frame Time : Type}.

(** What the typed text looks like: the buffer and the label hold
    typable characters only, and in count entry the buffer holds decimal
    digits only. *)
Definition typed_text (s : Session Frame Time) : Prop :=
  Py.all_chars typable (text_buf s) = true /\
  Py.all_chars typable (label s) = true /\
  (state s = STATE_INPUT_COUNT ->
   Py.all_chars Py.isdecimal_char (text_buf s) = true).

(** The keys that reach the file system. *)
Definition touches_disk (key : Z) (s : Session Frame Time) : Prop :=
  is_label_confirm key s \/
  (state s = STATE_REVIEW /\ is_save_key key) \/
  (state s = STATE_IDLE /\ is_undo_key key).

(** The session an outcome leaves, when it leaves one. *)
Definition session_of (o : Outcome Frame Time) : option (Session Frame Time) :=
  match o with
  | Continue s _ | Break s _ => Some s
  | Raise _ _ => None
  end.

(** The session an iteration hands to the key handling: the recording
    branch has appended the mirrored camera frame [flip c]. *)
Definition rendered (flip : Frame -> Frame) (c : Frame) (s : Session Frame Time)
    : Session Frame Time :=
  if bool_decide (state s = STATE_RECORDING)
  then set_raw_frames (raw_frames s ++ [flip c]) s else s.


End ModelMore.

(** ** Where the drawing helpers put things *)

(** A drawing request: a dark bar over the full width (top edge, height,
    opacity in hundredths) or a text (with the left end of its baseline). *)
Inductive Draw :=
| DarkBar (y h alpha : Z)
| Text (text : string) (x y : Z).

Section Layout.

(** [cv2.getTextSize(text, FONT, scale, thickness)[0][0]], the scale in
    hundredths. *)
Variable text_width : string -> Z -> Z -> Z.

(** [draw_text_centered] on a frame [fw] wide. *)
Definition text_centered_calls (fw : Z) (text : string) (y scale thickness : Z)
    : list Draw :=
  let size := text_width text scale thickness in
  let x := (fw - size) / 2 in
  [Text text x y].

(** [draw_input_prompt] on a frame [fh] high and [fw] wide. *)
Definition input_prompt_calls (fh fw : Z) (prompt text_buf : string)
    (cursor_on : bool) : list Draw :=
  let bar_h := 120 in
  let bar_y := fh / 2 - bar_h / 2 in
  let cursor := if cursor_on then "|" else " " in
  let display := text_buf +:+ cursor in
  [DarkBar bar_y bar_h 90]
  ++ text_centered_calls fw prompt (bar_y + 40) 70 2
  ++ text_centered_calls fw display (bar_y + 85) 100 2.

(** [draw_controls] on a frame [fh] high. *)
Definition controls_calls (fh : Z) (lines : list string) : list Draw :=
  let bar_h := 18 * Z.of_nat (length lines) + 16 in
  DarkBar (fh - bar_h) bar_h 80
  :: imap (fun i line => Text line 14 (fh - bar_h + 22 + Z.of_nat i * 18)) lines.

End Layout.

(** ** The packaging script [build_app.py] *)

Module BuildApp.

Section Command.

(** [Path.exists] on a directory given as text, and [str(root / name)]. *)
Variable exists_dir : string -> bool.
Variable child : string -> string -> string.

(** [find_mediapipe_data], for [mp_root] the directory of the package. *)
Definition find_mediapipe_data (mp_root : string) : list (string * string) :=
  let datas := [] in
  let modules_dir := child mp_root "modules" in
  let datas := if exists_dir modules_dir
               then datas ++ [(modules_dir, "mediapipe/modules")] else datas in
  let tasks_dir := child mp_root "tasks" in
  let datas := if exists_dir tasks_dir
               then datas ++ [(tasks_dir, "mediapipe/tasks")] else datas in
  let model_dir := child mp_root "model_maker" in
  let datas := if exists_dir model_dir
               then datas ++ [(model_dir, "mediapipe/model_maker")] else datas in
  datas.

(** The three directories [find_mediapipe_data] looks for. *)
Definition candidates (mp_root : string) : list (string * string) :=
  [(child mp_root "modules", "mediapipe/modules");
   (child mp_root "tasks", "mediapipe/tasks");
   (child mp_root "model_maker", "mediapipe/model_maker")].

Definition hidden : list string :=
  ["mediapipe"; "mediapipe.python"; "mediapipe.python._framework_bindings";
   "mediapipe.tasks"; "mediapipe.tasks.python"; "mediapipe.tasks.python.vision"].

(** The command [build] hands to [subprocess.check_call]; [windows] is
    [platform.system() == "Windows"]. *)
Definition build_cmd (executable : string) (windows : bool)
    (mp_datas : list (string * string)) (script : string) : list string :=
  let cmd := [executable; "-m"; "PyInstaller"; "--name"; "SLT_DataCollect";
              "--onedir"; "--console"; "--noconfirm"] in
  let sep := if windows then ";" else ":" in
  let cmd := fold_left (fun cmd sd => cmd ++ ["--add-data"; sd.1 +:+ sep +:+ sd.2])
                       mp_datas cmd in
  let cmd := fold_left (fun cmd h => cmd ++ ["--hidden-import"; h]) hidden cmd in
  cmd ++ [script].

End Command.

End BuildApp.

(** ** Sample sessions and worlds *)

Module Sample.

(** Frames, clock readings and landmark sets are numbered. *)
Definition clips (ps : list (string * string)) : gmap Path (list nat) :=
  list_to_map ((λ dn, ({| parent := dn.1; name := dn.2 |}, [0%nat])) <$> ps).

Definition world_with (ps : list (string * string)) : World nat :=
  {| files := clips ps; dirs := ∅; stdout := []; syscalls := []; screen := [] |}.

Definition session (m : Mode) (text lbl : string) (target count : Z)
    (paths : list Path) (buffer : list nat) : Session nat nat :=
  {| state := m; text_buf := text; label := lbl; target_count := target;
     saved_count := count; saved_files := paths; raw_frames := buffer;
     rec_start := 0%nat; review_frame := None |}.

Definition hello (n : Z) : Path :=
  {| parent := "hello"; name := clip_name "hello" n |}.

(** A display on which every drawing leaves a mark. *)
Definition marking : Display nat nat nat :=
  {| draw_landmarks := λ f l, (f + l + 1000)%nat;
     draw_input_prompt := λ f _ _ _, (f + 1)%nat;
     draw_controls := λ f _, (f + 2)%nat;
     draw_top_bar := λ f _ _ _ _, (f + 3)%nat;
     draw_rec_indicator := λ f _, (f + 4)%nat;
     draw_dark_bar := λ f _ _, (f + 5)%nat;
     draw_text_centered := λ f _ _, (f + 6)%nat;
     cursor_blink := Nat.even;
     elapsed := Nat.sub;
     review_caption := λ n, pretty n +:+ " frames" |}.

Definition tick (c : nat) (hands : list nat) (key : Z) : Tick nat nat nat :=
  {| cam_read := Some c; hands_live := hands; hands_review := hands;
     time_blink := c; time_elapsed := c; time_key := c; wait_key := key |}.


(** A directory with a gap, next to another label's directory. *)
Definition gapped_world : World nat :=
  world_with [("hello", "hello_1.mp4"); ("hello", "hello_3.mp4");
              ("other", "hello_9.mp4")].

Definition gapped_entry : Session nat nat :=
  session STATE_INPUT_LABEL "hello" "" 0 0 [] [].

(** The outcome as far as the bookkeeping goes. *)
Definition bookkeeping (o : Outcome nat nat) : option (Mode * string * Z * list Path) :=
  match o with
  | Continue s _ => Some (state s, text_buf s, saved_count s, saved_files s)
  | _ => None
  end.

End Sample.

(** Decide the comparisons of two mode constants in a hypothesis. *)
Ltac mode_tests H :=
  repeat match type of H with
    | context [bool_decide (?a = ?b)] =>
        first [ rewrite (bool_decide_eq_true_2 (a = b)) in H by reflexivity
              | rewrite (bool_decide_eq_false_2 (a = b)) in H by discriminate ]
    end.

(** ** Facts about the string built-ins *)

Module PyFacts.

Lemma append_cons (x : ascii) (a b : string) :
  String x a +:+ b = String x (a +:+ b).
Proof. reflexivity. Qed.



Lemma append_nil_r (a : string) : a +:+ "" = a.
Proof.
  induction a as [|x a IH]; [reflexivity|]. rewrite append_cons, IH. reflexivity.
Qed.

Lemma length_append (a b : string) :
  String.length (a +:+ b) = (String.length a + String.length b)%nat.
Proof.
  induction a as [|x a IH]; [reflexivity|]. rewrite append_cons. simpl.
  rewrite IH. reflexivity.
Qed.

Lemma ord_chr (k : Z) : 0 <= k < 256 -> Py.ord (Py.chr k) = k.
Proof.
  intros Hk. unfold Py.ord, Py.chr. rewrite N_ascii_embedding by lia. lia.
Qed.

Lemma ord_range (c : ascii) : 0 <= Py.ord c < 256.
Proof.
  unfold Py.ord. pose proof (N_ascii_bounded c). lia.
Qed.

Lemma isdecimal_isdigit_char c : Py.isdecimal_char c = true -> Py.isdigit_char c = true.
Proof. unfold Py.isdigit_char. intros ->. reflexivity. Qed.

Lemma all_decimal_all_digit s :
  Py.all_chars Py.isdecimal_char s = true -> Py.all_chars Py.isdigit_char s = true.
Proof.
  induction s as [|c s IH]; simpl; [reflexivity|].
  intros [Hc Hs]%andb_true_iff. rewrite (isdecimal_isdigit_char c Hc). simpl. auto.
Qed.

Lemma isdecimal_isdigit s : Py.isdecimal s = true -> Py.isdigit s = true.
Proof.
  unfold Py.isdecimal, Py.isdigit. intros [-> Hs]%andb_true_iff.
  rewrite all_decimal_all_digit by exact Hs. reflexivity.
Qed.

Lemma int_digits_total acc s :
  0 <= acc -> Py.all_chars Py.isdecimal_char s = true ->
  exists n, Py.int_digits acc s = Some n /\ acc <= n.
Proof.
  revert acc. induction s as [|c s IH]; simpl; intros acc Hacc Hs.
  - exists acc. split; [reflexivity|lia].
  - apply andb_true_iff in Hs as [Hc Hs]. rewrite Hc.
    pose proof Hc as Hr. unfold Py.isdecimal_char in Hr.
    apply andb_true_iff in Hr as [Hlo Hhi].
    apply Z.leb_le in Hlo. apply Z.leb_le in Hhi.
    destruct (IH (10 * acc + (Py.ord c - 48))) as (n & Hn & Hle); [lia|exact Hs|].
    exists n. split; [exact Hn|lia].
Qed.

(** [int()] accepts every non-empty run of decimal digits. *)
Lemma int_total s :
  Py.isdecimal s = true -> exists n, Py.int s = Some n /\ 0 <= n.
Proof.
  unfold Py.isdecimal, Py.int. intros [-> Hs]%andb_true_iff.
  apply int_digits_total; [lia|exact Hs].
Qed.

Lemma drop_last_snoc (t : string) (c : ascii) :
  Py.drop_last (t +:+ String c "") = t.
Proof.
  induction t as [|x t IH]; [reflexivity|].
  rewrite append_cons. simpl. rewrite IH. destruct t; reflexivity.
Qed.

(** The digit test on a typed key agrees with the range of ['0'..'9']. *)
Lemma typed_isdigit (k : Z) :
  0 <= k < 127 ->
  Py.isdigit (String (Py.chr k) "") = (48 <=? k) && (k <=? 57).
Proof.
  intros Hk. unfold Py.isdigit, Py.isdigit_char, Py.isdecimal_char. simpl.
  rewrite ord_chr by lia. unfold Py.Z_in. simpl.
  rewrite andb_true_r, !orb_false_r.
  destruct (48 <=? k) eqn:E1, (k <=? 57) eqn:E2; simpl; try reflexivity;
    repeat match goal with |- context [?a =? ?b] =>
      let E := fresh in destruct (Z.eqb_spec a b) as [E|E]; [lia|] end;
    reflexivity.
Qed.

End PyFacts.

(** ** Facts about the writer and the undo stack *)

Section Bookkeeping.

Context {Frame Time : Type}.
Implicit Types (s : Session Frame Time) (w : World Frame).

Lemma pop_snoc {A} (xs : list A) (x : A) : pop (xs ++ [x]) = Some (x, xs).
Proof. unfold pop. rewrite rev_unit, rev_involutive. reflexivity. Qed.

Lemma pop_nil_inv {A} (xs : list A) : pop xs = None -> xs = [].
Proof.
  unfold pop. destruct (rev xs) eqn:E; [|discriminate].
  intros _. apply (f_equal (@rev A)) in E. rewrite rev_involutive in E. exact E.
Qed.

Lemma pop_Some_inv {A} (xs r : list A) (x : A) : pop xs = Some (x, r) -> xs = r ++ [x].
Proof.
  unfold pop. destruct (rev xs) as [|y t] eqn:E; [discriminate|].
  intros [= <- <-]. apply (f_equal (@rev A)) in E. rewrite rev_involutive in E.
  exact E.
Qed.

(** Writing a buffer through the writer leaves exactly that buffer in the file. *)
Lemma written_frames (p : Path) (fs pre : list Frame) w :
  files w !! p = Some pre ->
  files (fold_left (writer_write p) fs w) !! p = Some (pre ++ fs).
Proof.
  revert pre w. induction fs as [|f fs IH]; intros pre w Hp; simpl.
  - rewrite app_nil_r. exact Hp.
  - rewrite (IH (pre ++ [f])).
    + rewrite <- app_assoc. reflexivity.
    + simpl. rewrite lookup_alter_eq, Hp. reflexivity.
Qed.

Lemma written_syscalls (p : Path) (fs : list Frame) w :
  syscalls (fold_left (writer_write p) fs w)
  = syscalls w ++ repeat (OpWriterWrite p) (length fs).
Proof.
  revert w. induction fs as [|f fs IH]; intros w; simpl.
  - rewrite app_nil_r. reflexivity.
  - rewrite IH. simpl. rewrite <- app_assoc. reflexivity.
Qed.

Lemma written_others (p : Path) (fs : list Frame) w :
  dirs (fold_left (writer_write p) fs w) = dirs w /\
  stdout (fold_left (writer_write p) fs w) = stdout w /\
  screen (fold_left (writer_write p) fs w) = screen w.
Proof.
  revert w. induction fs as [|f fs IH]; intros w; simpl; [auto|].
  destruct (IH (writer_write p w f)) as (-> & -> & ->). auto.
Qed.

End Bookkeeping.

(** ** Facts about the directory scan *)

Module GlobFacts.

Import PyFacts.

Lemma strip_prefix_Some p s r : Py.strip_prefix p s = Some r -> s = p +:+ r.
Proof.
  revert s. induction p as [|a p IH]; intros s; simpl.
  - intros [= ->]. reflexivity.
  - destruct s as [|b s]; [discriminate|].
    destruct (Ascii.eqb_spec a b) as [->|]; [|discriminate].
    intros H. rewrite append_cons, (IH _ H). reflexivity.
Qed.


Lemma strip_suffix_unfold suf s :
  Py.strip_suffix suf s =
    if String.eqb s suf then Some EmptyString
    else match s with
         | EmptyString => None
         | String c r => String c <$> Py.strip_suffix suf r
         end.
Proof. destruct s; reflexivity. Qed.

Lemma strip_suffix_Some suf s r : Py.strip_suffix suf s = Some r -> s = r +:+ suf.
Proof.
  revert r. induction s as [|c s IH]; intros r; rewrite strip_suffix_unfold.
  - destruct (String.eqb_spec "" suf) as [<-|]; [|discriminate].
    intros [= <-]. reflexivity.
  - destruct (String.eqb_spec (String c s) suf) as [<-|].
    + intros [= <-]. reflexivity.
    + destruct (Py.strip_suffix suf s) as [r'|]; [|discriminate].
      intros [= <-]. rewrite append_cons, <- (IH r' eq_refl). reflexivity.
Qed.



(** The shape behind [named_index]. *)
Lemma named_index_shape l nm n :
  named_index l nm = Some n ->
  exists ds, nm = (l +:+ "_") +:+ (ds +:+ ".mp4") /\
             Py.isdecimal ds = true /\ Py.int ds = Some n.
Proof.
  unfold named_index.
  destruct (Py.strip_prefix (l +:+ "_") nm) as [rest|] eqn:Hp; [|discriminate].
  destruct (Py.strip_suffix ".mp4" rest) as [ds|] eqn:Hsuf; [|discriminate].
  destruct (Py.isdecimal ds) eqn:Hd; [|discriminate].
  intros Hn. exists ds. apply strip_prefix_Some in Hp.
  apply strip_suffix_Some in Hsuf. subst. auto.
Qed.














Lemma named_index_nonneg l nm n : named_index l nm = Some n -> 0 <= n.
Proof.
  intros (ds & _ & Hd & Hn)%named_index_shape.
  destruct (int_total ds Hd) as (m & Hm & Hpos). congruence.
Qed.





End GlobFacts.

(** ** Save, undo and discard *)

Section Transitions.

Context {Frame Time : Type}.
Implicit Types (s : Session Frame Time) (w : World Frame).

Lemma key_step_undo key frame now s w :
  state s = STATE_IDLE -> is_undo_key key ->
  key_step key frame now s w = undo s w.
Proof.
  intros Hs [-> | ->]; unfold key_step, idle_key; rewrite Hs; reflexivity.
Qed.

Lemma key_step_save key frame now s w :
  state s = STATE_REVIEW -> is_save_key key ->
  key_step key frame now s w = save s w.
Proof.
  intros Hs [-> | ->]; unfold key_step, review_key; rewrite Hs; reflexivity.
Qed.

Lemma key_step_discard frame now s w :
  state s = STATE_REVIEW ->
  key_step KEY_SPACE frame now s w = discard s w.
Proof. intros Hs. unfold key_step, review_key. rewrite Hs. reflexivity. Qed.

(** What [save] leaves behind, whatever the buffer holds. *)
Lemma save_effect s w :
  exists s' w',
    save s w = Continue s' w' /\
    saved_count s' = saved_count s + 1 /\
    saved_files s' = saved_files s ++ [next_clip s] /\
    raw_frames s' = [] /\ review_frame s' = None /\
    label s' = label s /\ target_count s' = target_count s /\
    state s' = (if target_count s <=? saved_count s + 1
                then STATE_INPUT_LABEL else STATE_IDLE) /\
    files w' !! next_clip s = Some (raw_frames s) /\
    syscalls w' = syscalls w ++ [OpMkdir (label s); OpWriterOpen (next_clip s)]
                    ++ repeat (OpWriterWrite (next_clip s)) (length (raw_frames s))
                    ++ [OpWriterRelease (next_clip s)].
Proof.
  unfold save. cbn [label saved_count target_count set_saved_count raw_frames
    set_saved_files set_raw_frames set_review_frame].
  fold (next_clip s).
  set (w1 := fold_left (writer_write (next_clip s)) (raw_frames s)
               (writer_open (next_clip s) (mkdir (label s) w))).
  assert (Hf : files w1 !! next_clip s = Some (raw_frames s)).
  { subst w1. rewrite (written_frames _ _ []); [reflexivity|].
    simpl. apply lookup_insert_eq. }
  assert (Hc : syscalls w1 = (syscalls w ++ [OpMkdir (label s)]
                 ++ [OpWriterOpen (next_clip s)])
                 ++ repeat (OpWriterWrite (next_clip s)) (length (raw_frames s))).
  { subst w1. rewrite written_syscalls. simpl. rewrite <- !app_assoc. reflexivity. }
  destruct (target_count s <=? saved_count s + 1); eexists _, _;
    (split; [reflexivity|]); cbn; rewrite Hc, <- !app_assoc; auto 12.
Qed.

(** C8. In review, the discard key (space) leaves [saved_count] and
    [saved_files] as they were, touches neither the files nor the file
    system at all, empties the frame buffer and returns to idle. *)
Theorem discard_keeps_bookkeeping frame now s w :
  state s = STATE_REVIEW ->
  exists s' w',
    key_step KEY_SPACE frame now s w = Continue s' w' /\
    saved_count s' = saved_count s /\ saved_files s' = saved_files s /\
    files w' = files w /\ dirs w' = dirs w /\ syscalls w' = syscalls w /\
    raw_frames s' = [] /\ state s' = STATE_IDLE.
Proof.
  intros Hs. rewrite key_step_discard by exact Hs.
  unfold discard. eexists _, _. split; [reflexivity|]. cbn. auto 10.
Qed.

(** C9. Undo in idle with nothing saved: the session is returned as it
    was, no request reaches the file system, and the only effect is the
    line "Nothing to undo" on the console. *)
Theorem undo_nothing key frame now s w :
  state s = STATE_IDLE -> is_undo_key key -> saved_files s = [] ->
  key_step key frame now s w = Continue s (print "  Nothing to undo" w) /\
  syscalls (print "  Nothing to undo" w) = syscalls w /\
  files (print "  Nothing to undo" w) = files w /\
  stdout (print "  Nothing to undo" w) = stdout w ++ ["  Nothing to undo"].
Proof.
  intros Hs Hk Hnil. rewrite key_step_undo by assumption.
  unfold undo. rewrite Hnil. cbn. auto.
Qed.

(** C3 (as the code has it). Undo in idle when the most recent path is
    no longer on disk: the path is taken off [saved_files], the line
    "File already gone: <name>" is printed, nothing is deleted, and
    [saved_count] keeps its value. *)
Theorem undo_missing_file key frame now s w last rest :
  state s = STATE_IDLE -> is_undo_key key ->
  saved_files s = rest ++ [last] -> files w !! last = None ->
  exists s' w',
    key_step key frame now s w = Continue s' w' /\
    saved_files s' = rest /\ saved_count s' = saved_count s /\
    state s' = STATE_IDLE /\ files w' = files w /\
    stdout w' = stdout w ++ ["  File already gone: " +:+ name last] /\
    syscalls w' = syscalls w ++ [OpExists last].
Proof.
  intros Hs Hk Hfiles Hgone. rewrite key_step_undo by assumption.
  unfold undo, path_exists. rewrite Hfiles, pop_snoc, Hgone.
  rewrite bool_decide_eq_false_2 by (intros [? ?]; discriminate).
  eexists _, _. split; [reflexivity|]. cbn. auto 10.
Qed.

(** Undo in idle when the most recent path is on disk. *)
Lemma undo_present_file key frame now s w last rest :
  state s = STATE_IDLE -> is_undo_key key ->
  saved_files s = rest ++ [last] -> is_Some (files w !! last) ->
  exists s' w',
    key_step key frame now s w = Continue s' w' /\
    saved_files s' = rest /\ saved_count s' = saved_count s - 1 /\
    state s' = STATE_IDLE /\ files w' = delete last (files w) /\
    syscalls w' = syscalls w ++ [OpExists last; OpUnlink last].
Proof.
  intros Hs Hk Hfiles Hthere. rewrite key_step_undo by assumption.
  unfold undo, path_exists. rewrite Hfiles, pop_snoc.
  rewrite bool_decide_eq_true_2 by exact Hthere.
  eexists _, _. split; [reflexivity|]. cbn. rewrite <- app_assoc. auto 10.
Qed.

(** C4. A save in review that lands in idle, followed by an undo while
    the file just written is on disk, gives back the [saved_count] and the
    [saved_files] from before the save; and right after the save the file
    is on disk. *)
Theorem undo_inverts_save ksave kundo frame now frame' now' s w s1 w1 :
  state s = STATE_REVIEW -> is_save_key ksave -> is_undo_key kundo ->
  key_step ksave frame now s w = Continue s1 w1 ->
  state s1 = STATE_IDLE ->
  is_Some (files w1 !! next_clip s) /\
  forall w2, is_Some (files w2 !! next_clip s) ->
    exists s2 w3,
      key_step kundo frame' now' s1 w2 = Continue s2 w3 /\
      saved_count s2 = saved_count s /\ saved_files s2 = saved_files s /\
      state s2 = STATE_IDLE /\ files w3 !! next_clip s = None.
Proof.
  intros Hs Hks Hku Hsave Hidle.
  rewrite key_step_save in Hsave by assumption.
  destruct (save_effect s w) as (s' & w' & E & Hc & Hf & _ & _ & _ & _ & _ & Hw & _).
  rewrite E in Hsave. injection Hsave as <- <-.
  split; [rewrite Hw; eauto|].
  intros w2 Hthere.
  destruct (undo_present_file kundo frame' now' s' w2 (next_clip s) (saved_files s))
    as (s2 & w3 & E2 & Hf2 & Hc2 & Hs2 & Hw3 & _); try assumption.
  exists s2, w3. split; [exact E2|].
  rewrite Hf2, Hc2, Hc, Hw3, lookup_delete_eq. repeat split; auto; lia.
Qed.

(** C10. A save in review with an empty frame buffer goes through like
    any other: the count goes up by one, the file [{label}_{count}.mp4] is
    created and holds no frame (the writer is opened and released with no
    write between), its path is appended, and the next mode follows the
    target check. *)
Theorem save_empty_buffer key frame now s w :
  state s = STATE_REVIEW -> is_save_key key -> raw_frames s = [] ->
  exists s' w',
    key_step key frame now s w = Continue s' w' /\
    saved_count s' = saved_count s + 1 /\
    saved_files s' = saved_files s ++ [next_clip s] /\
    name (next_clip s) = label s +:+ "_" +:+ Py.str (saved_count s') +:+ ".mp4" /\
    files w' !! next_clip s = Some [] /\
    syscalls w' = syscalls w ++ [OpMkdir (label s); OpWriterOpen (next_clip s);
                                 OpWriterRelease (next_clip s)] /\
    state s' = (if target_count s <=? saved_count s + 1
                then STATE_INPUT_LABEL else STATE_IDLE).
Proof.
  intros Hs Hk Hempty. rewrite key_step_save by assumption.
  destruct (save_effect s w) as (s' & w' & E & Hc & Hf & _ & _ & _ & _ & Hst & Hw & Hsys).
  exists s', w'. rewrite Hempty in Hw, Hsys. rewrite Hc.
  repeat split; auto.
Qed.

End Transitions.

(** ** Text entry *)

Section TextEntry.

Context {Frame Time : Type}.
Implicit Types (s : Session Frame Time) (w : World Frame).

Lemma key_step_text key frame now s w :
  in_text_entry s -> key <> KEY_q -> key <> KEY_Q ->
  key_step key frame now s w = text_input_key key s w.
Proof.
  intros Hs Hq HQ. unfold key_step.
  destruct (Z.eqb_spec key KEY_q); [contradiction|].
  destruct (Z.eqb_spec key KEY_Q); [contradiction|].
  destruct Hs as [-> | ->]; reflexivity.
Qed.

(** C6. Enter in count entry. If the stripped text is not all digits
    (the empty text included) nothing changes. If the handler leaves count
    entry, the stripped text was all digits and [target_count] is the
    number read, raised to 1 when it is smaller. And every non-empty run
    of decimal digits is accepted in this way. *)
Theorem count_confirm frame now s w :
  state s = STATE_INPUT_COUNT ->
  (Py.isdigit (Py.strip (text_buf s)) = false ->
     key_step KEY_ENTER frame now s w = Continue s w) /\
  (forall s' w',
     key_step KEY_ENTER frame now s w = Continue s' w' ->
     state s' <> STATE_INPUT_COUNT ->
     Py.isdigit (Py.strip (text_buf s)) = true /\
     state s' = STATE_IDLE /\ 1 <= target_count s' /\
     exists n, Py.int (Py.strip (text_buf s)) = Some n /\
               target_count s' = Z.max 1 n) /\
  (Py.isdecimal (Py.strip (text_buf s)) = true ->
     exists n s' w',
       Py.int (Py.strip (text_buf s)) = Some n /\
       key_step KEY_ENTER frame now s w = Continue s' w' /\
       state s' = STATE_IDLE /\ target_count s' = Z.max 1 n /\
       text_buf s' = "" /\ saved_count s' = saved_count s /\
       saved_files s' = saved_files s).
Proof.
  intros Hs.
  rewrite key_step_text by (first [right; exact Hs | discriminate]).
  unfold text_input_key. change (KEY_ENTER =? KEY_ENTER) with true. cbv iota.
  rewrite Hs. change (bool_decide (STATE_INPUT_COUNT = STATE_INPUT_LABEL)) with false.
  change (bool_decide (STATE_INPUT_COUNT = STATE_INPUT_COUNT)) with true.
  cbn [andb]. unfold confirm_count.
  split; [|split].
  - intros ->. reflexivity.
  - intros s' w'. destruct (Py.isdigit (Py.strip (text_buf s))) eqn:Hd.
    + destruct (Py.int (Py.strip (text_buf s))) as [n|] eqn:Hn; [|discriminate].
      cbn. intros [= <- <-] _. split; [reflexivity|].
      destruct (Z.ltb_spec n 1); cbn; (split; [reflexivity|]);
        (split; [lia|]); exists n; (split; [reflexivity|lia]).
    + intros [= <- <-] Hne. contradiction.
  - intros Hdec. rewrite (PyFacts.isdecimal_isdigit _ Hdec).
    destruct (PyFacts.int_total _ Hdec) as (n & Hn & Hpos). rewrite Hn.
    exists n. eexists _, _. split; [reflexivity|]. split; [reflexivity|].
    cbn. destruct (Z.ltb_spec n 1); cbn; repeat split; lia.
Qed.

(** C7 (as the code has it). In label entry and count entry: a key with
    code 33..126 other than [q] and [Q] is appended to the text, except
    that count entry drops it unless it is one of ['0'..'9']; codes 8 and
    127 remove the last character (and leave the empty text empty);
    space is ignored; [q] and [Q] leave the loop. *)
Theorem text_entry_keys key frame now s w :
  in_text_entry s ->
  (33 <= key <= 126 -> key <> KEY_q -> key <> KEY_Q ->
     key_step key frame now s w =
       Continue (if bool_decide (state s = STATE_INPUT_COUNT)
                    && negb ((48 <=? key) && (key <=? 57))
                 then s
                 else set_text_buf (text_buf s +:+ String (Py.chr key) "") s) w) /\
  (key = 8 \/ key = 127 ->
     key_step key frame now s w
       = Continue (set_text_buf (Py.drop_last (text_buf s)) s) w /\
     (forall t c, text_buf s = t +:+ String c "" -> Py.drop_last (text_buf s) = t) /\
     (text_buf s = "" -> Py.drop_last (text_buf s) = "")) /\
  (key = KEY_SPACE -> key_step key frame now s w = Continue s w) /\
  (key = KEY_q \/ key = KEY_Q -> key_step key frame now s w = Break s w).
Proof.
  intros Hs. split; [|split; [|split]].
  - intros Hk Hq HQ. rewrite key_step_text by assumption.
    unfold text_input_key.
    destruct (Z.eqb_spec key KEY_ENTER) as [E|_]; [unfold KEY_ENTER in E; lia|].
    unfold Py.Z_in. cbn [existsb].
    destruct (Z.eqb_spec key 8); [lia|]. destruct (Z.eqb_spec key 127); [lia|].
    cbn [orb]. destruct (Z.leb_spec 32 key); [|lia].
    destruct (Z.ltb_spec key 127); [|lia].
    destruct (Z.eqb_spec key KEY_SPACE) as [E|_]; [change KEY_SPACE with 32 in E; lia|].
    cbn [andb negb]. rewrite PyFacts.typed_isdigit by lia.
    destruct (bool_decide (state s = STATE_INPUT_COUNT)); cbn [andb];
      [destruct ((48 <=? key) && (key <=? 57))|]; reflexivity.
  - intros Hk. split; [|split].
    + rewrite key_step_text by (first [exact Hs | destruct Hk as [-> | ->]; discriminate]).
      unfold text_input_key. destruct Hk as [-> | ->]; reflexivity.
    + intros t c ->. apply PyFacts.drop_last_snoc.
    + intros ->. reflexivity.
  - intros ->. rewrite key_step_text by (first [exact Hs | discriminate]).
    reflexivity.
  - intros [-> | ->]; reflexivity.
Qed.

End TextEntry.

(** ** Label confirm and the resume scan *)

Section Resume.

Context {Frame Time : Type}.
Implicit Types (s : Session Frame Time) (w : World Frame).

Lemma key_step_confirm_label frame now s w :
  is_label_confirm KEY_ENTER s ->
  key_step KEY_ENTER frame now s w = confirm_label s w.
Proof.
  intros (_ & Hs & Hne).
  rewrite key_step_text by (first [left; exact Hs | discriminate]).
  unfold text_input_key. change (KEY_ENTER =? KEY_ENTER) with true. cbv iota.
  rewrite Hs, Hne. reflexivity.
Qed.

(** The three ways a label confirm can end. *)
Lemma confirm_label_cases s w :
  let l := Py.strip (text_buf s) in
  let existing := existing_clips l w in
  (existing = [] /\
   exists s' w', confirm_label s w = Continue s' w' /\
     state s' = STATE_INPUT_COUNT /\ label s' = l /\
     saved_count s' = 0 /\ saved_files s' = [] /\ files w' = files w) \/
  (existing <> [] /\
   exists n s' w', last_num existing = inl n /\
     confirm_label s w = Continue s' w' /\
     state s' = STATE_INPUT_COUNT /\ label s' = l /\
     saved_count s' = n /\ saved_files s' = existing /\ files w' = files w) \/
  (existing <> [] /\
   exists e w', last_num existing = inr e /\ confirm_label s w = Raise e w').
Proof.
  intros l existing. unfold confirm_label, sorted_glob.
  change (existing_clips (Py.strip (text_buf s)) (mkdir (Py.strip (text_buf s)) w))
    with existing.
  destruct existing as [|p ps] eqn:E.
  - left. split; [reflexivity|]. eexists _, _. split; [reflexivity|]. cbn. auto 10.
  - right. destruct (last_num (p :: ps)) as [n|e] eqn:Hn.
    + left. split; [discriminate|]. exists n. eexists _, _.
      split; [reflexivity|]. split; [reflexivity|]. cbn. auto 10.
    + right. split; [discriminate|]. exists e. eexists. split; reflexivity.
Qed.

(** The scan returns the matched entries of the label's directory. *)
Lemma existing_clips_elem l w p :
  p ∈ existing_clips l w <->
  exists nm, p = {| parent := l; name := nm |} /\
             nm ∈ listdir w l /\ clip_pattern l nm = true.
Proof.
  unfold existing_clips. rewrite merge_sort_Permutation, list_elem_of_fmap.
  split; intros (nm & -> & H); exists nm; (split; [reflexivity|]).
  - apply list_elem_of_filter in H. tauto.
  - apply list_elem_of_filter. tauto.
Qed.


End Resume.

(** ** The count and the list of saved paths *)

Section Invariant.

Context {Frame Time : Type}.
Implicit Types (s : Session Frame Time) (w : World Frame).

Lemma Z_in_undo_keys key : Py.Z_in key [KEY_u; KEY_U] = true -> is_undo_key key.
Proof.
  unfold Py.Z_in. cbn [existsb]. rewrite orb_false_r.
  intros [E|E]%orb_true_iff; apply Z.eqb_eq in E; [left|right]; exact E.
Qed.

Local Ltac same_bookkeeping :=
  match goal with
  | H : Continue _ _ = Continue _ _ |- _ =>
      injection H as <- <-; unfold counts_agree in *; cbn in *;
      try assumption; try lia
  | H : Break _ _ = Continue _ _ |- _ => discriminate H
  | H : Raise _ _ = Continue _ _ |- _ => discriminate H
  end.

(** Every transition but the label confirm and the undo of a file that
    is gone keeps the count equal to the number of saved paths. *)
Lemma counts_agree_kept key frame now s w s' w' :
  key_step key frame now s w = Continue s' w' ->
  ~ is_label_confirm key s -> ~ is_undo_of_missing key s w ->
  counts_agree s -> counts_agree s'.
Proof.
  intros Hstep Hnc Hnu Hinv. unfold key_step in Hstep.
  destruct ((key =? KEY_q) || (key =? KEY_Q)); [discriminate|].
  destruct (state s) eqn:Hs.
  - (* label entry *)
    unfold text_input_key in Hstep. rewrite Hs in Hstep.
    destruct (Z.eqb_spec key KEY_ENTER) as [Hk|_].
    + destruct (Py.nonempty (Py.strip (text_buf s))) eqn:Hne.
      * exfalso. apply Hnc. repeat split; assumption.
      * mode_tests Hstep. cbn in Hstep. same_bookkeeping.
    + destruct (Py.Z_in key [8; 127]); [same_bookkeeping|].
      destruct ((32 <=? key) && (key <? 127) && negb (key =? KEY_SPACE));
        mode_tests Hstep; same_bookkeeping.
  - (* count entry *)
    unfold text_input_key in Hstep. rewrite Hs in Hstep.
    destruct (key =? KEY_ENTER).
    + mode_tests Hstep. cbn in Hstep.
      destruct (Py.isdigit (Py.strip (text_buf s))); [|same_bookkeeping].
      unfold confirm_count in Hstep.
      destruct (Py.int (Py.strip (text_buf s))) as [n|]; [|discriminate].
      cbn in Hstep. destruct (n <? 1); same_bookkeeping.
    + destruct (Py.Z_in key [8; 127]); [same_bookkeeping|].
      destruct ((32 <=? key) && (key <? 127) && negb (key =? KEY_SPACE));
        mode_tests Hstep; [|same_bookkeeping].
      destruct (Py.isdigit (String (Py.chr key) "")); same_bookkeeping.
  - (* idle *)
    unfold idle_key in Hstep.
    destruct (key =? KEY_SPACE); [same_bookkeeping|].
    destruct (Py.Z_in key [KEY_u; KEY_U]) eqn:Hu; [|same_bookkeeping].
    apply Z_in_undo_keys in Hu. unfold undo, path_exists in Hstep.
    destruct (pop (saved_files s)) as [[last rest]|] eqn:Hpop; [|same_bookkeeping].
    apply pop_Some_inv in Hpop.
    destruct (files w !! last) as [content|] eqn:Hlast.
    + rewrite bool_decide_eq_true_2 in Hstep by eauto.
      injection Hstep as <- <-. unfold counts_agree in *. cbn.
      rewrite Hpop, length_app in Hinv. simpl in Hinv. lia.
    + exfalso. apply Hnu. split; [exact Hs|]. split; [exact Hu|]. eauto.
  - (* recording *)
    unfold recording_key in Hstep. destruct (key =? KEY_SPACE); same_bookkeeping.
  - (* review *)
    unfold review_key in Hstep.
    destruct ((key =? KEY_o) || (key =? KEY_O)).
    + destruct (save_effect s w) as (s1 & w1 & E & Hc & Hf & _).
      rewrite E in Hstep. injection Hstep as <- <-.
      unfold counts_agree in *. rewrite Hc, Hf, length_app. simpl. lia.
    + destruct (key =? KEY_SPACE); [unfold discard in Hstep|]; same_bookkeeping.
Qed.

(** C1 (as the code has it). Along a completed transition the equation
    [saved_count = length saved_files] is kept by save, discard, the undo
    of a file that is on disk, the undo on an empty list and every other
    key, the label confirm and the undo of a file that is gone excepted.
    A label confirm sets [saved_files] to the sorted entries matching
    [L_*.mp4] and [saved_count] to 0 when there is none and to their
    highest all-digit suffix otherwise. *)
Theorem counts_agree_step key frame now s w s' w' :
  key_step key frame now s w = Continue s' w' ->
  (~ is_label_confirm key s -> ~ is_undo_of_missing key s w ->
   counts_agree s -> counts_agree s') /\
  (is_label_confirm key s ->
   saved_files s' = existing_clips (Py.strip (text_buf s)) w /\
   (saved_files s' = [] -> saved_count s' = 0) /\
   (saved_files s' <> [] -> last_num (saved_files s') = inl (saved_count s'))).
Proof.
  intros Hstep. split; [eauto using counts_agree_kept|].
  intros Hconfirm. pose proof Hconfirm as (-> & _ & _).
  rewrite key_step_confirm_label in Hstep by exact Hconfirm.
  destruct (confirm_label_cases s w)
    as [(Hnil & s1 & w1 & E & _ & _ & Hc & Hf & _)
       |[(Hne & n & s1 & w1 & Hlast & E & _ & _ & Hc & Hf & _)
        |(_ & e & w1 & _ & E)]];
    rewrite E in Hstep; [| |discriminate]; injection Hstep as <- <-.
  - rewrite Hf, Hnil. split; [reflexivity|]. split; [auto|contradiction].
  - rewrite Hf, Hc. split; [reflexivity|]. split; [contradiction|]. auto.
Qed.

End Invariant.

(** ** The overlay and the clip files *)

Section Overlay.

Context {Frame Time Landmarks : Type}.
Implicit Types (s : Session Frame Time) (w : World Frame).
Implicit Types (tk : Tick Frame Time Landmarks).

Local Ltac by_fields :=
  intros;
  repeat match goal with
    | w : World _ |- _ => destruct w
    | H : same_outside _ _ |- _ =>
        unfold same_outside, outside in H; cbn in H; injection H as -> -> -> ->
    end;
  unfold same_outside, outside; cbn; reflexivity.

Lemma same_outside_print line w1 w2 :
  same_outside w1 w2 -> same_outside (print line w1) (print line w2).
Proof. by_fields. Qed.

Lemma same_outside_request op w1 w2 :
  same_outside w1 w2 -> same_outside (request op w1) (request op w2).
Proof. by_fields. Qed.

Lemma same_outside_imshow f1 f2 w1 w2 :
  same_outside w1 w2 -> same_outside (imshow f1 w1) (imshow f2 w2).
Proof. by_fields. Qed.

Lemma same_outside_mkdir d w1 w2 :
  same_outside w1 w2 -> same_outside (mkdir d w1) (mkdir d w2).
Proof. by_fields. Qed.

Lemma same_outside_unlink p w1 w2 :
  same_outside w1 w2 -> same_outside (unlink p w1) (unlink p w2).
Proof. by_fields. Qed.

Lemma same_outside_writer_open p w1 w2 :
  same_outside w1 w2 -> same_outside (writer_open p w1) (writer_open p w2).
Proof. by_fields. Qed.

Lemma same_outside_writer_write p f w1 w2 :
  same_outside w1 w2 -> same_outside (writer_write p w1 f) (writer_write p w2 f).
Proof. by_fields. Qed.

Lemma same_outside_writer_release p w1 w2 :
  same_outside w1 w2 -> same_outside (writer_release p w1) (writer_release p w2).
Proof. by_fields. Qed.

Lemma same_outside_written p (fs : list Frame) w1 w2 :
  same_outside w1 w2 ->
  same_outside (fold_left (writer_write p) fs w1) (fold_left (writer_write p) fs w2).
Proof.
  revert w1 w2. induction fs as [|f fs IH]; intros w1 w2 Hw; simpl; [exact Hw|].
  apply IH, same_outside_writer_write, Hw.
Qed.

Lemma same_outside_files w1 w2 : same_outside w1 w2 -> files w1 = files w2.
Proof. unfold same_outside, outside. intros [= -> _ _ _]. reflexivity. Qed.

Lemma same_outside_existing l w1 w2 :
  same_outside w1 w2 -> existing_clips l w1 = existing_clips l w2.
Proof.
  intros Hw. unfold existing_clips, listdir.
  rewrite (same_outside_files _ _ Hw). reflexivity.
Qed.

Create HintDb outside.
#[local] Hint Resolve same_outside_print same_outside_request same_outside_imshow
  same_outside_mkdir same_outside_unlink same_outside_writer_open
  same_outside_writer_release same_outside_written : outside.

Local Ltac split_sessions :=
  repeat match goal with
    | s : Session _ _ |- _ => destruct s
    | H : same_persisted _ _ |- _ =>
        unfold same_persisted, persisted in H; cbn in H;
        injection H as -> -> -> -> -> -> ->
    end.

Local Ltac same_result :=
  cbn; first
    [ split; [reflexivity | auto 10 with outside]
    | split; [unfold same_persisted, persisted; cbn; reflexivity
             | auto 10 with outside] ].

Lemma confirm_label_same s1 s2 w1 w2 :
  same_persisted s1 s2 -> same_outside w1 w2 ->
  same_outcome (confirm_label s1 w1) (confirm_label s2 w2).
Proof.
  intros Hs Hw. split_sessions. unfold confirm_label, sorted_glob. cbn.
  rewrite (same_outside_existing _ (mkdir _ w1) (mkdir _ w2)) by auto with outside.
  destruct (existing_clips _ _) as [|p ps]; [same_result|].
  destruct (last_num (p :: ps)); same_result.
Qed.

Lemma confirm_count_same s1 s2 w1 w2 :
  same_persisted s1 s2 -> same_outside w1 w2 ->
  same_outcome (confirm_count s1 w1) (confirm_count s2 w2).
Proof.
  intros Hs Hw. split_sessions. unfold confirm_count. cbn.
  destruct (Py.int _) as [n|]; [|same_result].
  cbn. destruct (n <? 1); same_result.
Qed.

Lemma undo_same s1 s2 w1 w2 :
  same_persisted s1 s2 -> same_outside w1 w2 ->
  same_outcome (undo s1 w1) (undo s2 w2).
Proof.
  intros Hs Hw. split_sessions. unfold undo, path_exists. cbn.
  destruct (pop _) as [[last rest]|]; [|same_result].
  rewrite (same_outside_files _ _ Hw).
  destruct (bool_decide _); same_result.
Qed.

Lemma save_same s1 s2 w1 w2 :
  same_persisted s1 s2 -> same_outside w1 w2 ->
  same_outcome (save s1 w1) (save s2 w2).
Proof.
  intros Hs Hw. split_sessions. unfold save. cbn.
  destruct (_ <=? _); same_result.
Qed.

(** The key handling reads neither the clock reading nor the frozen
    frame nor the window, and lets the frame on display reach nothing
    but the frozen frame. *)
Lemma key_step_same key f1 f2 (n1 n2 : Time) s1 s2 w1 w2 :
  same_persisted s1 s2 -> same_outside w1 w2 ->
  same_outcome (key_step key f1 n1 s1 w1) (key_step key f2 n2 s2 w2).
Proof.
  intros Hs Hw. unfold key_step.
  assert (Hst : state s1 = state s2)
    by (unfold same_persisted, persisted in Hs; congruence).
  assert (Htx : text_buf s1 = text_buf s2)
    by (unfold same_persisted, persisted in Hs; congruence).
  destruct ((key =? KEY_q) || (key =? KEY_Q)); [split; assumption|].
  rewrite <- Hst. destruct (state s1) eqn:E1.
  - unfold text_input_key. rewrite <- Hst, E1, <- Htx.
    destruct (key =? KEY_ENTER).
    { destruct (_ && _); [apply confirm_label_same; assumption|].
      destruct (_ && _); [apply confirm_count_same; assumption|].
      split; assumption. }
    destruct (Py.Z_in key [8; 127]); [split_sessions; same_result|].
    destruct (_ && _); [|split; assumption].
    destruct (bool_decide _); [destruct (Py.isdigit _)|];
      first [split; assumption | split_sessions; same_result].
  - unfold text_input_key. rewrite <- Hst, E1, <- Htx.
    destruct (key =? KEY_ENTER).
    { destruct (_ && _); [apply confirm_label_same; assumption|].
      destruct (_ && _); [apply confirm_count_same; assumption|].
      split; assumption. }
    destruct (Py.Z_in key [8; 127]); [split_sessions; same_result|].
    destruct (_ && _); [|split; assumption].
    destruct (bool_decide _); [destruct (Py.isdigit _)|];
      first [split; assumption | split_sessions; same_result].
  - unfold idle_key. destruct (key =? KEY_SPACE); [split_sessions; same_result|].
    destruct (Py.Z_in _ _); [apply undo_same; assumption|split; assumption].
  - unfold recording_key.
    destruct (key =? KEY_SPACE); [split_sessions; same_result|split; assumption].
  - unfold review_key.
    destruct (_ || _); [apply save_same; assumption|].
    destruct (key =? KEY_SPACE); [|split; assumption].
    unfold discard. split_sessions; same_result.
Qed.

Lemma render_same (D1 D2 : Display Frame Time Landmarks) tk1 tk2 raw f1 f2 s1 s2 :
  same_persisted s1 s2 ->
  same_persisted (render (H:=D1) tk1 raw f1 s1).1 (render (H:=D2) tk2 raw f2 s2).1.
Proof.
  intros Hs. split_sessions. unfold render. cbn.
  match goal with |- context [match ?m with STATE_INPUT_LABEL => _ | _ => _ end] =>
    destruct m end; reflexivity.
Qed.

Lemma iteration_same (D1 D2 : Display Frame Time Landmarks) flip tk1 tk2 s1 s2 w1 w2 :
  same_capture tk1 tk2 -> same_persisted s1 s2 -> same_outside w1 w2 ->
  same_outcome (iteration (H:=D1) flip tk1 s1 w1) (iteration (H:=D2) flip tk2 s2 w2).
Proof.
  intros [Hcam Hkey] Hs Hw. unfold iteration. rewrite <- Hcam, <- Hkey.
  destruct (cam_read tk1) as [c|]; [|split; assumption].
  set (live1 := fold_left (draw_landmarks (Display:=D1)) (hands_live tk1) (flip c)).
  set (live2 := fold_left (draw_landmarks (Display:=D2)) (hands_live tk2) (flip c)).
  pose proof (render_same D1 D2 tk1 tk2 (flip c) live1 live2 s1 s2 Hs) as Hr.
  destruct (render (H:=D1) tk1 (flip c) live1 s1) as [s1' f1'].
  destruct (render (H:=D2) tk2 (flip c) live2 s2) as [s2' f2'].
  apply key_step_same; [exact Hr|auto with outside].
Qed.

(** Whatever the detector returns and whatever is drawn, two runs fed
    the same camera frames and keys agree on every file, directory,
    console line and file-system request, and on the session apart from
    the clock reading and the frozen display frame. *)
Lemma run_same (D1 D2 : Display Frame Time Landmarks) flip ticks1 ticks2 :
  Forall2 same_capture ticks1 ticks2 ->
  forall s1 s2 w1 w2,
    same_persisted s1 s2 -> same_outside w1 w2 ->
    same_outcome (run (H:=D1) flip ticks1 s1 w1) (run (H:=D2) flip ticks2 s2 w2).
Proof.
  induction 1 as [|tk1 tk2 r1 r2 Htk _ IH]; intros s1 s2 w1 w2 Hs Hw; simpl.
  - split; assumption.
  - pose proof (iteration_same D1 D2 flip tk1 tk2 s1 s2 w1 w2 Htk Hs Hw) as Hi.
    destruct (iteration flip tk1 s1 w1), (iteration flip tk2 s2 w2);
      try contradiction; try exact Hi.
    destruct Hi. apply IH; assumption.
Qed.

(** *** One recording from start to save *)

Section Recording.

Context (D : Display Frame Time Landmarks) (flip : Frame -> Frame).

Lemma render_session tk raw frame s :
  (render tk raw frame s).1 =
    if bool_decide (state s = STATE_RECORDING)
    then set_raw_frames (raw_frames s ++ [raw]) s else s.
Proof. unfold render. destruct s as [[] ? ? ? ? ? ? ? ?]; reflexivity. Qed.

(** An iteration with a camera frame is the key handling applied to the
    rendered session; the recording branch has appended the raw frame. *)
Lemma iteration_captured tk c s w :
  cam_read tk = Some c ->
  exists frame,
    iteration flip tk s w =
      key_step (pressed tk) frame (time_key tk)
        (if bool_decide (state s = STATE_RECORDING)
         then set_raw_frames (raw_frames s ++ [flip c]) s else s)
        (imshow frame w).
Proof.
  intros Hc. unfold iteration. rewrite Hc.
  rewrite <- (render_session tk (flip c)
                (fold_left draw_landmarks (hands_live tk) (flip c)) s).
  destruct (render tk _ _ s) as [s1 f1]. exists f1. reflexivity.
Qed.

Local Ltac key_tests :=
  repeat match goal with
    | H : ?k <> ?c |- context [?k =? ?c] => rewrite (proj2 (Z.eqb_neq k c) H)
    end.

Lemma start_recording tk s w :
  state s = STATE_IDLE -> is_Some (cam_read tk) -> pressed tk = KEY_SPACE ->
  exists s' w',
    iteration flip tk s w = Continue s' w' /\
    state s' = STATE_RECORDING /\ raw_frames s' = [] /\
    next_clip s' = next_clip s.
Proof.
  intros Hs [c Hc] Hk. destruct (iteration_captured tk c s w Hc) as [f ->].
  rewrite Hk, Hs, bool_decide_eq_false_2 by discriminate.
  unfold key_step. rewrite Hs. unfold idle_key.
  eexists _, _. split; [reflexivity|]. cbn. auto.
Qed.

Lemma keep_recording tk s w :
  state s = STATE_RECORDING -> keeps_recording tk ->
  exists s' w',
    iteration flip tk s w = Continue s' w' /\
    state s' = STATE_RECORDING /\
    raw_frames s' = raw_frames s ++ (flip <$> captured [tk]) /\
    next_clip s' = next_clip s.
Proof.
  intros Hs ([c Hc] & H1 & H2 & H3).
  destruct (iteration_captured tk c s w Hc) as [f ->].
  rewrite Hs, bool_decide_eq_true_2 by reflexivity.
  unfold key_step. key_tests. cbn [orb state set_raw_frames]. rewrite Hs.
  unfold recording_key. key_tests.
  eexists _, _. split; [reflexivity|]. unfold captured. cbn. rewrite Hc. auto.
Qed.

Lemma stop_recording tk s w :
  state s = STATE_RECORDING -> is_Some (cam_read tk) -> pressed tk = KEY_SPACE ->
  exists s' w',
    iteration flip tk s w = Continue s' w' /\
    state s' = STATE_REVIEW /\
    raw_frames s' = raw_frames s ++ (flip <$> captured [tk]) /\
    next_clip s' = next_clip s.
Proof.
  intros Hs [c Hc] Hk. destruct (iteration_captured tk c s w Hc) as [f ->].
  rewrite Hk, Hs, bool_decide_eq_true_2 by reflexivity.
  unfold key_step. cbn [state set_raw_frames]. rewrite Hs. unfold recording_key.
  eexists _, _. split; [reflexivity|]. unfold captured. cbn. rewrite Hc. auto.
Qed.

Lemma keep_reviewing tk s w :
  state s = STATE_REVIEW -> keeps_reviewing tk ->
  exists s' w',
    iteration flip tk s w = Continue s' w' /\
    state s' = STATE_REVIEW /\ raw_frames s' = raw_frames s /\
    next_clip s' = next_clip s.
Proof.
  intros Hs ([c Hc] & H1 & H2 & H3 & H4 & H5).
  destruct (iteration_captured tk c s w Hc) as [f ->].
  rewrite Hs, bool_decide_eq_false_2 by discriminate.
  unfold key_step. key_tests. cbn [orb]. rewrite Hs.
  unfold review_key. key_tests. cbn [orb].
  eexists _, _. split; [reflexivity|]. auto.
Qed.

Lemma save_clip tk s w :
  state s = STATE_REVIEW -> is_Some (cam_read tk) -> is_save_key (pressed tk) ->
  exists s' w',
    iteration flip tk s w = Continue s' w' /\
    files w' !! next_clip s = Some (raw_frames s).
Proof.
  intros Hs [c Hc] Hk. destruct (iteration_captured tk c s w Hc) as [f ->].
  rewrite Hs, bool_decide_eq_false_2 by discriminate.
  rewrite key_step_save by assumption.
  destruct (save_effect s (imshow f w)) as (s' & w' & E & _ & _ & _ & _ & _ & _ & _ & Hw & _).
  exists s', w'. split; assumption.
Qed.

Lemma run_app (a b : list (Tick Frame Time Landmarks)) s w :
  run flip (a ++ b) s w =
    match run flip a s w with
    | Continue s' w' => run flip b s' w'
    | stopped => stopped
    end.
Proof.
  revert s w. induction a as [|tk a IH]; intros s w; simpl; [reflexivity|].
  destruct (iteration flip tk s w); [apply IH|reflexivity..].
Qed.

Lemma captured_cons tk ticks : captured (tk :: ticks) = captured [tk] ++ captured ticks.
Proof. unfold captured. simpl. destruct (cam_read tk); reflexivity. Qed.

Lemma run_keep_recording ticks :
  Forall keeps_recording ticks ->
  forall s w, state s = STATE_RECORDING ->
  exists s' w',
    run flip ticks s w = Continue s' w' /\
    state s' = STATE_RECORDING /\
    raw_frames s' = raw_frames s ++ (flip <$> captured ticks) /\
    next_clip s' = next_clip s.
Proof.
  induction 1 as [|tk ticks Htk _ IH]; intros s w Hs; cbn [run].
  - exists s, w. unfold captured. simpl. rewrite app_nil_r. auto.
  - destruct (keep_recording tk s w Hs Htk) as (s1 & w1 & -> & Hs1 & Hr1 & Hn1).
    destruct (IH s1 w1 Hs1) as (s2 & w2 & E & Hs2 & Hr2 & Hn2).
    exists s2, w2. split; [exact E|]. split; [exact Hs2|].
    split; [|congruence].
    rewrite Hr2, Hr1, <- app_assoc, <- fmap_app, <- captured_cons. reflexivity.
Qed.

Lemma run_keep_reviewing ticks :
  Forall keeps_reviewing ticks ->
  forall s w, state s = STATE_REVIEW ->
  exists s' w',
    run flip ticks s w = Continue s' w' /\
    state s' = STATE_REVIEW /\ raw_frames s' = raw_frames s /\
    next_clip s' = next_clip s.
Proof.
  induction 1 as [|tk ticks Htk _ IH]; intros s w Hs; cbn [run].
  - exists s, w. auto.
  - destruct (keep_reviewing tk s w Hs Htk) as (s1 & w1 & -> & Hs1 & Hr1 & Hn1).
    destruct (IH s1 w1 Hs1) as (s2 & w2 & E & Hs2 & Hr2 & Hn2).
    exists s2, w2. split; [exact E|]. split; [exact Hs2|]. split; congruence.
Qed.

(** From idle: start, any number of iterations recording, stop, any
    number of iterations in review, save. The clip file then holds the
    mirrored camera frames of the iterations spent recording, the one
    that received the stop key included, in arrival order. *)
Lemma saved_clip_is_capture t_start recording t_stop reviewing t_save s w :
  state s = STATE_IDLE ->
  is_Some (cam_read t_start) -> pressed t_start = KEY_SPACE ->
  Forall keeps_recording recording ->
  is_Some (cam_read t_stop) -> pressed t_stop = KEY_SPACE ->
  Forall keeps_reviewing reviewing ->
  is_Some (cam_read t_save) -> is_save_key (pressed t_save) ->
  exists s' w',
    run flip (t_start :: recording ++ t_stop :: reviewing ++ [t_save]) s w
      = Continue s' w' /\
    files w' !! next_clip s = Some (flip <$> captured (recording ++ [t_stop])).
Proof.
  intros Hs Hc0 Hk0 Hrec Hc1 Hk1 Hrev Hc2 Hk2. cbn [run].
  destruct (start_recording t_start s w Hs Hc0 Hk0) as (s1 & w1 & -> & Hs1 & Hr1 & Hn1).
  rewrite run_app.
  destruct (run_keep_recording recording Hrec s1 w1 Hs1)
    as (s2 & w2 & -> & Hs2 & Hr2 & Hn2).
  cbn [run].
  destruct (stop_recording t_stop s2 w2 Hs2 Hc1 Hk1) as (s3 & w3 & -> & Hs3 & Hr3 & Hn3).
  rewrite run_app.
  destruct (run_keep_reviewing reviewing Hrev s3 w3 Hs3)
    as (s4 & w4 & -> & Hs4 & Hr4 & Hn4).
  cbn [run app].
  destruct (save_clip t_save s4 w4 Hs4 Hc2 Hk2) as (s5 & w5 & -> & Hw).
  exists s5, w5. split; [reflexivity|].
  rewrite <- Hn1, <- Hn2, <- Hn3, <- Hn4, Hw, Hr4, Hr3, Hr2, Hr1.
  unfold captured. rewrite omap_app, fmap_app. reflexivity.
Qed.

(** Review is entered from recording only, and the key handling leaves
    the frame buffer alone on the way in and while it stays there. *)
Lemma key_step_into_review key f (n : Time) s w s' w' :
  key_step key f n s w = Continue s' w' -> state s' = STATE_REVIEW ->
  (state s = STATE_RECORDING \/ state s = STATE_REVIEW) /\
  raw_frames s' = raw_frames s.
Proof.
  intros Hstep Hs'. unfold key_step in Hstep.
  destruct ((key =? KEY_q) || (key =? KEY_Q)); [discriminate|].
  destruct (state s) eqn:Hs.
  - exfalso. unfold text_input_key in Hstep. rewrite Hs in Hstep.
    destruct (key =? KEY_ENTER).
    + mode_tests Hstep. cbn [andb] in Hstep.
      destruct (Py.nonempty (Py.strip (text_buf s))).
      * destruct (confirm_label_cases s w)
          as [(_ & s1 & w1 & E & Hst & _)
             |[(_ & m & s1 & w1 & _ & E & Hst & _)|(_ & e & w1 & _ & E)]];
          rewrite E in Hstep; try discriminate;
          injection Hstep as <- <-; congruence.
      * injection Hstep as <- <-. congruence.
    + destruct (Py.Z_in _ _); [injection Hstep as <- <-; cbn in Hs'; congruence|].
      destruct (_ && _); mode_tests Hstep; injection Hstep as <- <-;
        cbn in Hs'; congruence.
  - exfalso. unfold text_input_key in Hstep. rewrite Hs in Hstep.
    mode_tests Hstep. cbn [andb] in Hstep.
    destruct (key =? KEY_ENTER).
    + destruct (Py.isdigit _); [|injection Hstep as <- <-; congruence].
      unfold confirm_count in Hstep. destruct (Py.int _) as [m|]; [|discriminate].
      cbn in Hstep. destruct (m <? 1); injection Hstep as <- <-; discriminate Hs'.
    + destruct (Py.Z_in _ _); [injection Hstep as <- <-; cbn in Hs'; congruence|].
      destruct (_ && _); [|injection Hstep as <- <-; congruence].
      destruct (Py.isdigit _);
        injection Hstep as <- <-; cbn in Hs'; congruence.
  - exfalso. unfold idle_key in Hstep.
    destruct (_ =? _); [injection Hstep as <- <-; discriminate Hs'|].
    destruct (Py.Z_in _ _); [|injection Hstep as <- <-; congruence].
    unfold undo, path_exists in Hstep.
    destruct (pop _) as [[last rest]|]; [|injection Hstep as <- <-; congruence].
    destruct (bool_decide _); injection Hstep as <- <-; cbn in Hs'; congruence.
  - unfold recording_key in Hstep.
    destruct (_ =? _); injection Hstep as <- <-; auto.
  - unfold review_key in Hstep.
    destruct (_ || _).
    + exfalso. destruct (save_effect s w)
        as (s1 & w1 & E & _ & _ & _ & _ & _ & _ & Hst & _).
      rewrite E in Hstep. injection Hstep as <- <-.
      rewrite Hst in Hs'. destruct (_ <=? _); discriminate.
    + destruct (_ =? _); injection Hstep as <- <-; [discriminate Hs'|auto].
Qed.

(** In review the frame buffer is never empty: the recording branch has
    appended a frame before the stop key is handled. *)
Lemma review_buffer_kept tk s w s' w' :
  iteration flip tk s w = Continue s' w' ->
  (state s = STATE_REVIEW -> raw_frames s <> []) ->
  state s' = STATE_REVIEW -> raw_frames s' <> [].
Proof.
  intros Hstep Hinv Hs'.
  destruct (cam_read tk) as [c|] eqn:Hc;
    [|unfold iteration in Hstep; rewrite Hc in Hstep; discriminate].
  destruct (iteration_captured tk c s w Hc) as [f E]. rewrite E in Hstep.
  apply key_step_into_review in Hstep as [Hfrom ->]; [|exact Hs'].
  destruct (decide (state s = STATE_RECORDING)) as [Hrec|Hrec].
  - rewrite bool_decide_eq_true_2 by exact Hrec. cbn.
    intros Hnil. apply app_eq_nil in Hnil as [_ Hnil]. discriminate.
  - rewrite bool_decide_eq_false_2 in Hfrom |- * by exact Hrec.
    destruct Hfrom; [contradiction|auto].
Qed.

(** So no run from the initial session reaches review with an empty
    buffer. *)
Lemma review_buffer_nonempty ticks :
  forall s w s' w',
    run flip ticks s w = Continue s' w' ->
    (state s = STATE_REVIEW -> raw_frames s <> []) ->
    state s' = STATE_REVIEW -> raw_frames s' <> [].
Proof.
  induction ticks as [|tk ticks IH]; intros s w s' w' Hrun Hinv; cbn [run] in Hrun.
  - injection Hrun as <- <-. exact Hinv.
  - destruct (iteration flip tk s w) as [s1 w1| |] eqn:E; try discriminate.
    apply (IH s1 w1 s' w' Hrun). eauto using review_buffer_kept.
Qed.

End Recording.

(** C5. What a saved clip holds is the buffer of raw frames: after a
    recording from start to save the clip file holds the mirrored camera
    frames of the iterations spent recording, copied before anything is
    drawn, in arrival order; and two runs that see the same camera frames
    and keys, whatever the detector returns and whatever the drawing
    helpers do, agree on every file, directory, console line and
    file-system request. *)
Theorem overlay_never_persisted :
  (forall (D : Display Frame Time Landmarks) (flip : Frame -> Frame)
          t_start recording t_stop reviewing t_save s w,
     state s = STATE_IDLE ->
     is_Some (cam_read t_start) -> pressed t_start = KEY_SPACE ->
     Forall keeps_recording recording ->
     is_Some (cam_read t_stop) -> pressed t_stop = KEY_SPACE ->
     Forall keeps_reviewing reviewing ->
     is_Some (cam_read t_save) -> is_save_key (pressed t_save) ->
     exists s' w',
       run flip (t_start :: recording ++ t_stop :: reviewing ++ [t_save]) s w
         = Continue s' w' /\
       files w' !! next_clip s = Some (flip <$> captured (recording ++ [t_stop]))) /\
  (forall (D1 D2 : Display Frame Time Landmarks) (flip : Frame -> Frame)
          ticks1 ticks2 s1 s2 w1 w2,
     Forall2 same_capture ticks1 ticks2 ->
     same_persisted s1 s2 -> same_outside w1 w2 ->
     same_outcome (run (H:=D1) flip ticks1 s1 w1) (run (H:=D2) flip ticks2 s2 w2)).
Proof.
  split.
  - intros. apply saved_clip_is_capture; assumption.
  - intros. apply run_same; assumption.
Qed.

End Overlay.

(** ** The properties at sample inputs *)

Import Sample.

(** The scenario of the specification: three clips on disk, the label
    entered again, then one save. *)
Example resume_hello :
  bookkeeping (key_step KEY_ENTER 0%nat 0%nat
                 (session STATE_INPUT_LABEL "hello" "" 0 0 [] [])
                 (world_with [("hello", "hello_1.mp4"); ("hello", "hello_2.mp4");
                              ("hello", "hello_3.mp4")]))
  = Some (STATE_INPUT_COUNT, "", 3, [hello 1; hello 2; hello 3]).
Proof. vm_compute. reflexivity. Qed.

Example save_hello_4 :
  bookkeeping (key_step KEY_o 0%nat 0%nat
                 (session STATE_REVIEW "" "hello" 5 3 [hello 1; hello 2; hello 3] [7%nat])
                 (world_with []))
  = Some (STATE_IDLE, "", 4, [hello 1; hello 2; hello 3; hello 4])
  /\ name (hello 4) = "hello_4.mp4".
Proof. vm_compute. split; reflexivity. Qed.

(** A directory whose only match has no all-digit suffix: [max] is
    handed an empty sequence. *)
Example resume_raises :
  exists w', key_step KEY_ENTER 0%nat 0%nat
               (session STATE_INPUT_LABEL "hello" "" 0 0 [] [])
               (world_with [("hello", "hello_x.mp4")])
             = Raise ValueError_max_empty w'.
Proof. eexists. vm_compute. reflexivity. Qed.

(** [sorted()] orders the names as text: after ten clips the most recent
    path of the resumed list is clip 9. *)
Example resume_order :
  List.last (existing_clips "hello"
               (world_with [("hello", "hello_9.mp4"); ("hello", "hello_10.mp4")]))
            (hello 0)
  = hello 9.
Proof. vm_compute. reflexivity. Qed.

(** *** Where the specification and the script part *)

(** C1, refuted as stated. Entering the label [hello] when the directory
    holds only [hello_2.mp4] ends a completed transition with
    [saved_count = 2] and one saved path; and an undo whose file is gone
    leaves [saved_count = 1] with no saved path. *)
Lemma counts_differ_after_resume :
  (exists s' w',
     key_step KEY_ENTER 0%nat 0%nat
       (session STATE_INPUT_LABEL "hello" "" 0 0 [] [])
       (world_with [("hello", "hello_2.mp4")]) = Continue s' w' /\
     saved_count s' = 2 /\ length (saved_files s') = 1%nat /\
     ~ counts_agree s') /\
  (exists s' w',
     key_step KEY_u 0%nat 0%nat
       (session STATE_IDLE "" "hello" 5 1 [hello 1] [])
       (world_with []) = Continue s' w' /\
     saved_count s' = 1 /\ length (saved_files s') = 0%nat /\
     ~ counts_agree s').
Proof.
  split; eexists _, _; (split; [vm_compute; reflexivity|]);
    (split; [reflexivity|]); (split; [reflexivity|]);
    unfold counts_agree; vm_compute; discriminate.
Qed.


(** C3, refuted as stated. Undo when [hello_1.mp4] is gone from disk:
    the path is taken off the list and the notice is printed, but
    [saved_count] stays 1 instead of dropping to 0. *)
Lemma undo_missing_keeps_count :
  let s := session STATE_IDLE "" "hello" 5 1 [hello 1] [] in
  exists s' w',
    key_step KEY_u 0%nat 0%nat s (world_with []) = Continue s' w' /\
    saved_files s' = [] /\
    stdout w' = ["  File already gone: hello_1.mp4"] /\
    saved_count s' = 1 /\ saved_count s' <> saved_count s - 1.
Proof.
  intros s. eexists _, _. split; [vm_compute; reflexivity|].
  repeat split; try reflexivity. vm_compute. discriminate.
Qed.

(** C7, refuted as stated. Space is a printable character (code 32),
    yet typing it in label entry leaves the text as it was; and typing
    [q] ends the loop instead of extending the text. *)
Lemma space_is_not_appended :
  let s := session STATE_INPUT_LABEL "a" "" 0 0 [] [] in
  KEY_SPACE = 32 /\
  key_step KEY_SPACE 0%nat 0%nat s (world_with []) = Continue s (world_with []) /\
  text_buf s <> text_buf s +:+ " " /\
  key_step KEY_q 0%nat 0%nat s (world_with []) = Break s (world_with []).
Proof.
  intros s. split; [reflexivity|]. split; [reflexivity|].
  split; [vm_compute; discriminate|reflexivity].
Qed.

(** *** The theorems at work *)

Lemma counts_agree_step_witness :
  exists s' w',
    key_step KEY_o 0%nat 0%nat
      (session STATE_REVIEW "" "hello" 5 1 [hello 1] [7%nat])
      (world_with [("hello", "hello_1.mp4")]) = Continue s' w' /\
    counts_agree s'.
Proof.
  eexists _, _. split; [vm_compute; reflexivity|].
  eapply (proj1 (counts_agree_step KEY_o 0%nat 0%nat
                   (session STATE_REVIEW "" "hello" 5 1 [hello 1] [7%nat])
                   (world_with [("hello", "hello_1.mp4")]) _ _ eq_refl)).
  - intros (Hk & _). vm_compute in Hk. discriminate.
  - intros (Hs & _). discriminate.
  - reflexivity.
Defined.


Lemma undo_missing_file_witness :
  exists s' w',
    key_step KEY_U 0%nat 0%nat
      (session STATE_IDLE "" "hello" 5 2 [hello 1; hello 2] [])
      (world_with [("hello", "hello_1.mp4")]) = Continue s' w' /\
    saved_files s' = [hello 1] /\ saved_count s' = 2.
Proof.
  destruct (undo_missing_file KEY_U 0%nat 0%nat
              (session STATE_IDLE "" "hello" 5 2 [hello 1; hello 2] [])
              (world_with [("hello", "hello_1.mp4")]) (hello 2) [hello 1])
    as (s' & w' & E & Hf & Hc & _).
  - reflexivity.
  - right. reflexivity.
  - reflexivity.
  - vm_compute. reflexivity.
  - exists s', w'. auto.
Defined.

Lemma undo_inverts_save_witness :
  let s := session STATE_REVIEW "" "hello" 5 1 [hello 1] [7%nat; 8%nat] in
  let w := world_with [("hello", "hello_1.mp4")] in
  exists s1 w1 s2 w2,
    key_step KEY_o 0%nat 0%nat s w = Continue s1 w1 /\
    key_step KEY_u 0%nat 0%nat s1 w1 = Continue s2 w2 /\
    saved_count s2 = saved_count s /\ saved_files s2 = saved_files s.
Proof.
  intros s w.
  destruct (save_effect s w) as (s1 & w1 & E & _ & _ & _ & _ & _ & _ & Hst & _).
  assert (Hsave : key_step KEY_o 0%nat 0%nat s w = Continue s1 w1).
  { rewrite key_step_save; [exact E|reflexivity|left; reflexivity]. }
  destruct (undo_inverts_save KEY_o KEY_u 0%nat 0%nat 0%nat 0%nat s w s1 w1)
    as [Hthere Hundo].
  - reflexivity.
  - left. reflexivity.
  - left. reflexivity.
  - exact Hsave.
  - rewrite Hst. reflexivity.
  - destruct (Hundo w1 Hthere) as (s2 & w2 & E2 & Hc & Hf & _).
    exists s1, w1, s2, w2. auto.
Defined.

Lemma count_confirm_witness :
  exists s' w',
    key_step KEY_ENTER 0%nat 0%nat
      (session STATE_INPUT_COUNT "0" "hello" 0 0 [] []) (world_with [])
      = Continue s' w' /\
    state s' = STATE_IDLE /\ target_count s' = 1.
Proof.
  destruct (count_confirm 0%nat 0%nat
              (session STATE_INPUT_COUNT "0" "hello" 0 0 [] []) (world_with []))
    as (_ & _ & Hok); [reflexivity|].
  destruct Hok as (n & s' & w' & Hn & E & Hs & Ht & _); [reflexivity|].
  exists s', w'. split; [exact E|]. split; [exact Hs|].
  rewrite Ht. vm_compute in Hn. injection Hn as <-. reflexivity.
Defined.

Lemma text_entry_keys_witness :
  key_step (Py.ord "7") 0%nat 0%nat
    (session STATE_INPUT_COUNT "1" "hello" 0 0 [] []) (world_with [])
  = Continue (session STATE_INPUT_COUNT "17" "hello" 0 0 [] []) (world_with []).
Proof.
  destruct (text_entry_keys (Py.ord "7") 0%nat 0%nat
              (session STATE_INPUT_COUNT "1" "hello" 0 0 [] []) (world_with []))
    as (Happend & _); [right; reflexivity|].
  rewrite Happend; [reflexivity|vm_compute; split; discriminate
                   |discriminate|discriminate].
Defined.

Lemma discard_keeps_bookkeeping_witness :
  exists s' w',
    key_step KEY_SPACE 0%nat 0%nat
      (session STATE_REVIEW "" "hello" 5 1 [hello 1] [7%nat; 8%nat])
      (world_with [("hello", "hello_1.mp4")]) = Continue s' w' /\
    saved_count s' = 1 /\ saved_files s' = [hello 1] /\
    raw_frames s' = [] /\ state s' = STATE_IDLE.
Proof.
  destruct (discard_keeps_bookkeeping 0%nat 0%nat
              (session STATE_REVIEW "" "hello" 5 1 [hello 1] [7%nat; 8%nat])
              (world_with [("hello", "hello_1.mp4")]))
    as (s' & w' & E & Hc & Hf & _ & _ & _ & Hr & Hs); [reflexivity|].
  exists s', w'. auto.
Defined.

Lemma undo_nothing_witness :
  key_step KEY_u 0%nat 0%nat
    (session STATE_IDLE "" "hello" 5 0 [] []) (world_with [])
  = Continue (session STATE_IDLE "" "hello" 5 0 [] [])
             (print "  Nothing to undo" (world_with [])).
Proof.
  apply (undo_nothing KEY_u 0%nat 0%nat
           (session STATE_IDLE "" "hello" 5 0 [] []) (world_with [])).
  - reflexivity.
  - left. reflexivity.
  - reflexivity.
Defined.

Lemma save_empty_buffer_witness :
  exists s' w',
    key_step KEY_O 0%nat 0%nat
      (session STATE_REVIEW "" "hello" 2 1 [hello 1] []) (world_with [])
      = Continue s' w' /\
    saved_count s' = 2 /\ files w' !! hello 2 = Some [] /\
    state s' = STATE_INPUT_LABEL.
Proof.
  destruct (save_empty_buffer KEY_O 0%nat 0%nat
              (session STATE_REVIEW "" "hello" 2 1 [hello 1] []) (world_with []))
    as (s' & w' & E & Hc & _ & _ & Hw & _ & Hs).
  - reflexivity.
  - right. reflexivity.
  - reflexivity.
  - exists s', w'. auto.
Defined.

Lemma overlay_never_persisted_witness :
  exists s' w',
    run (H:=marking) (λ f, (f + 100)%nat)
      [tick 1 [5%nat] 32; tick 2 [6%nat] (-1); tick 3 [] 32; tick 4 [9%nat] (-1);
       tick 5 [] 111]
      (session STATE_IDLE "" "hello" 5 0 [] []) (world_with [])
      = Continue s' w' /\
    files w' !! hello 1 = Some [102%nat; 103%nat].
Proof.
  destruct (proj1 (@overlay_never_persisted nat nat nat) marking (λ f, (f + 100)%nat)
              (tick 1 [5%nat] 32) [tick 2 [6%nat] (-1)] (tick 3 [] 32)
              [tick 4 [9%nat] (-1)] (tick 5 [] 111)
              (session STATE_IDLE "" "hello" 5 0 [] []) (world_with []))
    as (s' & w' & E & Hw).
  - reflexivity.
  - eexists. reflexivity.
  - reflexivity.
  - repeat constructor; try (eexists; reflexivity); vm_compute; discriminate.
  - eexists. reflexivity.
  - reflexivity.
  - repeat constructor; try (eexists; reflexivity); vm_compute; discriminate.
  - eexists. reflexivity.
  - left. reflexivity.
  - exists s', w'. split; [exact E|exact Hw].
Defined.

(** * Further properties of the script *)

(** ** More facts about the string built-ins *)

Module TextFacts.

Import PyFacts.

Lemma all_chars_app p a b :
  Py.all_chars p (a +:+ b) = Py.all_chars p a && Py.all_chars p b.
Proof.
  induction a as [|c a IH]; [reflexivity|].
  rewrite append_cons. simpl. rewrite IH. apply andb_assoc.
Qed.

Lemma all_chars_drop_last p s :
  Py.all_chars p s = true -> Py.all_chars p (Py.drop_last s) = true.
Proof.
  induction s as [|c s IH]; [reflexivity|].
  simpl. intros [Hc Hs]%andb_true_iff. destruct s as [|d s]; [reflexivity|].
  change (Py.all_chars p (String c (Py.drop_last (String d s))) = true).
  simpl Py.all_chars at 1. rewrite Hc. exact (IH Hs).
Qed.

Lemma all_chars_lstrip p s :
  Py.all_chars p s = true -> Py.all_chars p (Py.lstrip s) = true.
Proof.
  induction s as [|c s IH]; [reflexivity|].
  intros H. simpl. destruct (Py.isspace_char c); [|exact H].
  simpl in H. apply andb_true_iff in H as [_ H]. exact (IH H).
Qed.

Lemma all_chars_rev_app p s1 s2 :
  Py.all_chars p (String.rev_app s1 s2) = Py.all_chars p s1 && Py.all_chars p s2.
Proof.
  revert s2. induction s1 as [|c s1 IH]; intros s2; [reflexivity|].
  simpl. rewrite IH. simpl.
  destruct (p c), (Py.all_chars p s1), (Py.all_chars p s2); reflexivity.
Qed.

Lemma all_chars_rev p s : Py.all_chars p (String.rev s) = Py.all_chars p s.
Proof. unfold String.rev. rewrite all_chars_rev_app. simpl. apply andb_true_r. Qed.

Lemma rev_app_rev_app s1 s2 s3 :
  String.rev_app (String.rev_app s1 s2) s3 = String.rev_app s2 (s1 +:+ s3).
Proof.
  revert s2 s3. induction s1 as [|c s1 IH]; intros s2 s3; [reflexivity|].
  simpl. rewrite IH. reflexivity.
Qed.

Lemma rev_involutive s : String.rev (String.rev s) = s.
Proof. unfold String.rev. rewrite rev_app_rev_app. simpl. apply append_nil_r. Qed.

(** [strip] keeps only characters of the text. *)
Lemma all_chars_strip p s :
  Py.all_chars p s = true -> Py.all_chars p (Py.strip s) = true.
Proof.
  intros H. unfold Py.strip.
  rewrite all_chars_rev. apply all_chars_lstrip.
  rewrite all_chars_rev. apply all_chars_lstrip, H.
Qed.

Lemma lstrip_id s :
  Py.all_chars (fun c => negb (Py.isspace_char c)) s = true -> Py.lstrip s = s.
Proof.
  destruct s as [|c s]; [reflexivity|]. simpl.
  intros [Hc _]%andb_true_iff. apply negb_true_iff in Hc. rewrite Hc. reflexivity.
Qed.

(** [strip] returns a text without blanks as it is. *)
Lemma strip_id s :
  Py.all_chars (fun c => negb (Py.isspace_char c)) s = true -> Py.strip s = s.
Proof.
  intros H. unfold Py.strip. rewrite (lstrip_id s H).
  rewrite lstrip_id by (rewrite all_chars_rev; exact H).
  apply rev_involutive.
Qed.

Lemma all_chars_impl (p q : ascii -> bool) s :
  (forall c, p c = true -> q c = true) ->
  Py.all_chars p s = true -> Py.all_chars q s = true.
Proof.
  intros Hpq. induction s as [|c s IH]; [reflexivity|]. simpl.
  intros [Hc Hs]%andb_true_iff. rewrite (Hpq c Hc), (IH Hs). reflexivity.
Qed.

Lemma Z_in_false k ks : Forall (fun x => k <> x) ks -> Py.Z_in k ks = false.
Proof.
  unfold Py.Z_in. induction 1 as [|x ks Hx _ IH]; [reflexivity|].
  simpl. rewrite IH. destruct (Z.eqb_spec k x); [contradiction|reflexivity].
Qed.

Lemma typable_not_space c : typable c = true -> negb (Py.isspace_char c) = true.
Proof.
  unfold typable, Py.isspace_char.
  intros [[[Hlo%Z.leb_le Hhi%Z.leb_le]%andb_true_iff _]%andb_true_iff _]%andb_true_iff.
  rewrite Z_in_false; [reflexivity|]. repeat constructor; lia.
Qed.


Lemma decimal_typable c : Py.isdecimal_char c = true -> typable c = true.
Proof.
  unfold Py.isdecimal_char, typable.
  intros [Hlo%Z.leb_le Hhi%Z.leb_le]%andb_true_iff.
  change KEY_q with 113. change KEY_Q with 81.
  repeat (apply andb_true_iff; split); try apply negb_true_iff;
    first [apply Z.leb_le; lia | apply Z.eqb_neq; lia].
Qed.









End TextFacts.

(** ** The typed text *)

Section TypedText.

Context {Frame Time : Type}.
Implicit Types (s : Session Frame Time) (w : World Frame).

Import PyFacts TextFacts.

Lemma typable_chr key :
  32 <= key < 127 -> key <> KEY_SPACE -> key <> KEY_q -> key <> KEY_Q ->
  typable (Py.chr key) = true.
Proof.
  intros Hk Hsp Hq HQ. unfold typable. rewrite ord_chr by lia.
  change KEY_SPACE with 32 in Hsp.
  repeat (apply andb_true_iff; split); try apply negb_true_iff;
    first [apply Z.leb_le; lia | apply Z.eqb_neq; assumption].
Qed.

Lemma typed_digit key :
  0 <= key < 127 -> Py.isdigit (String (Py.chr key) "") = true ->
  Py.isdecimal_char (Py.chr key) = true.
Proof.
  intros Hk. rewrite typed_isdigit by exact Hk.
  unfold Py.isdecimal_char. rewrite ord_chr by lia. auto.
Qed.

Local Ltac finish_typed :=
  match goal with
  | H : Continue _ _ = Continue _ _ |- _ => injection H as <- <-
  | H : Break _ _ = Continue _ _ |- _ => discriminate H
  | H : Raise _ _ = Continue _ _ |- _ => discriminate H
  end.

(** The key handling keeps the typed text well formed. *)
Lemma typed_text_key_step key f (n : Time) s w s' w' :
  key_step key f n s w = Continue s' w' -> typed_text s -> typed_text s'.
Proof.
  intros Hstep (Ht & Hl & Hd). unfold key_step in Hstep.
  destruct (Z.eqb_spec key KEY_q) as [|Hq]; [discriminate|].
  destruct (Z.eqb_spec key KEY_Q) as [|HQ]; [discriminate|].
  cbn [orb] in Hstep.
  destruct (state s) eqn:Hs.
  - (* label entry *)
    unfold text_input_key in Hstep. rewrite Hs in Hstep. mode_tests Hstep.
    cbn [andb] in Hstep.
    destruct (key =? KEY_ENTER).
    + destruct (Py.nonempty (Py.strip (text_buf s))).
      * destruct (confirm_label_cases s w)
          as [(_ & s1 & w1 & E & Hst & Hlab & _)
             |[(_ & m & s1 & w1 & _ & E & Hst & Hlab & _)|(_ & e & w1 & _ & E)]];
          rewrite E in Hstep; try discriminate; finish_typed;
          assert (Htx : text_buf s1 = "")
            by (unfold confirm_label, sorted_glob in E;
                repeat case_match; simplify_eq; reflexivity);
          (split; [rewrite Htx; reflexivity|]);
          (split; [rewrite Hlab; apply all_chars_strip, Ht|]);
          intros _; rewrite Htx; reflexivity.
      * finish_typed. repeat split; auto. intros; congruence.
    + destruct (Py.Z_in key [8; 127]).
      * finish_typed. split; [apply all_chars_drop_last, Ht|].
        split; [exact Hl|]. cbn. intros; congruence.
      * destruct (Z.leb_spec 32 key); cbn [andb] in Hstep;
          [|finish_typed; repeat split; auto; intros; congruence].
        destruct (Z.ltb_spec key 127); cbn [andb] in Hstep;
          [|finish_typed; repeat split; auto; intros; congruence].
        destruct (Z.eqb_spec key KEY_SPACE); cbn [negb] in Hstep;
          [finish_typed; repeat split; auto; intros; congruence|].
        finish_typed. split; [|split; [exact Hl|cbn; intros; congruence]].
        cbn. rewrite all_chars_app, Ht. simpl.
        rewrite typable_chr by (assumption || lia). reflexivity.
  - (* count entry *)
    specialize (Hd eq_refl).
    unfold text_input_key in Hstep. rewrite Hs in Hstep. mode_tests Hstep.
    cbn [andb] in Hstep.
    destruct (key =? KEY_ENTER).
    + destruct (Py.isdigit _);
        [|finish_typed; repeat split; auto].
      unfold confirm_count in Hstep. destruct (Py.int _) as [m|]; [|discriminate].
      cbn in Hstep. destruct (m <? 1); finish_typed;
        (split; [reflexivity|]); (split; [exact Hl|]); cbn; intros; discriminate.
    + destruct (Py.Z_in key [8; 127]).
      * finish_typed. split; [apply all_chars_drop_last, Ht|].
        split; [exact Hl|]. cbn. intros _. apply all_chars_drop_last, Hd.
      * destruct (Z.leb_spec 32 key); cbn [andb] in Hstep;
          [|finish_typed; repeat split; auto].
        destruct (Z.ltb_spec key 127); cbn [andb] in Hstep;
          [|finish_typed; repeat split; auto].
        destruct (Z.eqb_spec key KEY_SPACE); cbn [negb] in Hstep;
          [finish_typed; repeat split; auto|].
        destruct (Py.isdigit (String (Py.chr key) "")) eqn:Hdig;
          [|finish_typed; repeat split; auto].
        apply typed_digit in Hdig; [|lia].
        finish_typed. split; [|split; [exact Hl|intros _]];
          cbn [text_buf set_text_buf]; rewrite all_chars_app, ?Ht, ?Hd; simpl;
          rewrite ?Hdig, ?(decimal_typable _ Hdig); reflexivity.
  - (* idle *)
    unfold idle_key in Hstep.
    destruct (key =? KEY_SPACE);
      [finish_typed; repeat split; auto; cbn; intros; discriminate|].
    destruct (Py.Z_in _ _); [|finish_typed; repeat split; auto; intros; congruence].
    unfold undo, path_exists in Hstep.
    destruct (pop _) as [[last rest]|];
      [|finish_typed; repeat split; auto; intros; congruence].
    destruct (bool_decide _); finish_typed; repeat split; auto;
      cbn; intros; congruence.
  - (* recording *)
    unfold recording_key in Hstep.
    destruct (key =? KEY_SPACE); finish_typed; repeat split; auto;
      cbn; intros; congruence.
  - (* review *)
    unfold review_key in Hstep.
    destruct ((key =? KEY_o) || (key =? KEY_O)).
    + unfold save in Hstep. cbn in Hstep.
      destruct (_ <=? _); finish_typed; repeat split; auto;
        cbn; intros; congruence.
    + destruct (key =? KEY_SPACE); [unfold discard in Hstep|];
        finish_typed; repeat split; auto; cbn; intros; congruence.
Qed.

End TypedText.

(** ** What reaches the disk *)

Section DiskFacts.

Context {Frame Time : Type}.
Implicit Types (s : Session Frame Time) (w : World Frame).

Import PyFacts TextFacts.

(** The listing of a label directory is the set of its files. *)
Lemma listdir_elem w d nm :
  nm ∈ listdir w d <-> is_Some (files w !! {| parent := d; name := nm |}).
Proof.
  unfold listdir. rewrite list_elem_of_fmap. split.
  - intros ([d' nm'] & -> & [Hd Hin]%list_elem_of_filter). cbn in Hd. subst d'.
    apply list_elem_of_fmap in Hin as ([p v] & Hp & Hin). cbn in Hp. subst p.
    apply elem_of_map_to_list in Hin. cbn. eauto.
  - intros [v Hv]. exists {| parent := d; name := nm |}. split; [reflexivity|].
    apply list_elem_of_filter. split; [reflexivity|].
    apply list_elem_of_fmap. exists ({| parent := d; name := nm |}, v).
    split; [reflexivity|]. apply elem_of_map_to_list. exact Hv.
Qed.


Lemma confirm_label_files s w :
  files (world_of (confirm_label s w)) = files w /\
  Py.strip (text_buf s) ∈ dirs (world_of (confirm_label s w)).
Proof.
  unfold confirm_label, sorted_glob.
  destruct (existing_clips _ _) as [|p ps]; [cbn; split; [reflexivity|set_solver]|].
  destruct (last_num _); cbn; (split; [reflexivity|set_solver]).
Qed.




Lemma key_step_quiet key f (n : Time) s w :
  ~ touches_disk key s ->
  files (world_of (key_step key f n s w)) = files w /\
  dirs (world_of (key_step key f n s w)) = dirs w /\
  syscalls (world_of (key_step key f n s w)) = syscalls w.
Proof.
  intros Hquiet. unfold key_step.
  destruct ((key =? KEY_q) || (key =? KEY_Q)); [auto|].
  destruct (state s) eqn:Hs.
  - unfold text_input_key. rewrite Hs.
    destruct (Z.eqb_spec key KEY_ENTER) as [Hk|_].
    + destruct (Py.nonempty (Py.strip (text_buf s))) eqn:Hne.
      * exfalso. apply Hquiet. left. repeat split; assumption.
      * rewrite bool_decide_eq_true_2, bool_decide_eq_false_2 by done. cbn. auto.
    + destruct (Py.Z_in key [8; 127]); [cbn; auto|].
      destruct (_ && _); [|cbn; auto].
      rewrite bool_decide_eq_false_2 by done. cbn. auto.
  - unfold text_input_key. rewrite Hs.
    rewrite bool_decide_eq_false_2, bool_decide_eq_true_2 by done.
    destruct (key =? KEY_ENTER).
    + cbn [andb]. destruct (Py.isdigit _); [|cbn; auto].
      unfold confirm_count. destruct (Py.int _) as [m|]; cbn; auto.
    + destruct (Py.Z_in key [8; 127]); [cbn; auto|].
      destruct (_ && _); [|cbn; auto].
      destruct (Py.isdigit _); cbn; auto.
  - unfold idle_key. destruct (key =? KEY_SPACE); [cbn; auto|].
    destruct (Py.Z_in key [KEY_u; KEY_U]) eqn:Hu; [|cbn; auto].
    exfalso. apply Hquiet. right. right. split; [exact Hs|].
    apply Z_in_undo_keys, Hu.
  - unfold recording_key. destruct (key =? KEY_SPACE); cbn; auto.
  - unfold review_key.
    destruct (Z.eqb_spec key KEY_o) as [Ho|_];
      [exfalso; apply Hquiet; right; left; split; [exact Hs|left; exact Ho]|].
    destruct (Z.eqb_spec key KEY_O) as [Ho|_];
      [exfalso; apply Hquiet; right; left; split; [exact Hs|right; exact Ho]|].
    cbn [orb]. destruct (key =? KEY_SPACE); cbn; auto.
Qed.


(** X1. Keys that are no label confirm, no save in review and no undo
    in idle leave the files, the directories and the request trace as they
    were, whatever the outcome. *)
Theorem quiet_keys_leave_disk key f (n : Time) s w :
  ~ touches_disk key s ->
  files (world_of (key_step key f n s w)) = files w /\
  dirs (world_of (key_step key f n s w)) = dirs w /\
  syscalls (world_of (key_step key f n s w)) = syscalls w.
Proof. intros Hquiet. apply key_step_quiet, Hquiet. Qed.


End DiskFacts.

(** ** Label entry, save and undo in full *)

Section MoreTransitions.

Context {Frame Time : Type}.
Implicit Types (s : Session Frame Time) (w : World Frame).

Import PyFacts TextFacts.


(** X4. Enter in label entry. A blank text is ignored. Any other text
    has its label directory created and no file changed, even when the
    scan then raises; when the handler goes on, the label is the stripped
    text, the buffer is empty, the mode is count entry and the target is
    the one before. With the typed text well formed the label is the text
    as typed. *)
Theorem label_entry_enter f (n : Time) s w :
  state s = STATE_INPUT_LABEL ->
  (Py.nonempty (Py.strip (text_buf s)) = false ->
     key_step KEY_ENTER f n s w = Continue s w) /\
  (Py.nonempty (Py.strip (text_buf s)) = true ->
     Py.strip (text_buf s) ∈ dirs (world_of (key_step KEY_ENTER f n s w)) /\
     files (world_of (key_step KEY_ENTER f n s w)) = files w /\
     forall s' w', key_step KEY_ENTER f n s w = Continue s' w' ->
       label s' = Py.strip (text_buf s) /\ text_buf s' = "" /\
       state s' = STATE_INPUT_COUNT /\ target_count s' = target_count s /\
       (typed_text s -> label s' = text_buf s)).
Proof.
  intros Hs. split.
  - intros Hne. rewrite key_step_text by (first [left; exact Hs|discriminate]).
    unfold text_input_key. rewrite Hs, Hne.
    rewrite bool_decide_eq_true_2, bool_decide_eq_false_2 by done. reflexivity.
  - intros Hne.
    rewrite key_step_confirm_label by (repeat split; assumption).
    destruct (confirm_label_files s w) as [Hfiles Hdir].
    split; [exact Hdir|]. split; [exact Hfiles|].
    intros s' w' E. unfold confirm_label, sorted_glob in E.
    assert (Hfields : label s' = Py.strip (text_buf s) /\ text_buf s' = "" /\
                      state s' = STATE_INPUT_COUNT /\
                      target_count s' = target_count s).
    { destruct (existing_clips _ _) as [|p ps];
        [injection E as <- <-; cbn; auto|].
      destruct (last_num _); [|discriminate].
      injection E as <- <-. cbn. auto. }
    destruct Hfields as (Hl & Ht & Hst & Htc). repeat split; try assumption.
    intros (Htyped & _). rewrite Hl. apply strip_id.
    eapply all_chars_impl; [|exact Htyped]. apply typable_not_space.
Qed.


(** X6. An undo in idle whose most recent path is on disk deletes that
    file and no other, takes the path off the list, lowers the count by
    one and reports the deletion with the new count. *)
Theorem undo_deletes_last key f (n : Time) s w last rest :
  state s = STATE_IDLE -> is_undo_key key ->
  saved_files s = rest ++ [last] -> is_Some (files w !! last) ->
  exists s' w',
    key_step key f n s w = Continue s' w' /\
    files w' = delete last (files w) /\
    saved_files s' = rest /\ saved_count s' = saved_count s - 1 /\
    state s' = STATE_IDLE /\
    stdout w' = stdout w ++
      ["  Undone: deleted " +:+ name last +:+ " (" +:+ Py.str (saved_count s - 1)
       +:+ "/" +:+ Py.str (target_count s) +:+ ")"] /\
    syscalls w' = syscalls w ++ [OpExists last; OpUnlink last].
Proof.
  intros Hs Hk Hfiles Hthere. rewrite key_step_undo by assumption.
  unfold undo, path_exists. rewrite Hfiles, pop_snoc.
  rewrite bool_decide_eq_true_2 by exact Hthere.
  eexists _, _. split; [reflexivity|]. cbn. rewrite <- app_assoc. auto 10.
Qed.

End MoreTransitions.

(** ** Resuming a label *)

Global Instance path_le_refl : Reflexive path_le.
Proof.
  intros p. unfold path_le. rewrite decide_True by reflexivity. reflexivity.
Qed.

Global Instance path_le_trans : Transitive path_le.
Proof.
  intros p q r. unfold path_le.
  destruct (decide (parent p = parent q)) as [Epq|Npq];
    destruct (decide (parent q = parent r)) as [Eqr|Nqr];
    destruct (decide (parent p = parent r)) as [Epr|Npr];
    intros H1 H2; try congruence;
    try (etrans; eassumption);
    first [ rewrite Epq; exact H2
          | rewrite <- Eqr; exact H1
          | exfalso; apply Npq; apply (anti_symm String.le); [exact H1|];
            rewrite Epr; exact H2 ].
Qed.

Global Instance path_le_total : Total path_le.
Proof.
  intros p q. unfold path_le.
  destruct (decide (parent p = parent q)) as [E|N].
  - rewrite decide_True by congruence. apply (total String.le).
  - rewrite decide_False by congruence. apply (total String.le).
Qed.

Section ResumeMore.

Context {Frame Time : Type}.
Implicit Types (s : Session Frame Time) (w : World Frame).

Import PyFacts TextFacts.






Lemma listdir_NoDup w d : NoDup (listdir w d).
Proof.
  unfold listdir. apply NoDup_fmap_2_strong.
  - intros [d1 n1] [d2 n2] [H1 _]%list_elem_of_filter [H2 _]%list_elem_of_filter.
    cbn in *. congruence.
  - apply NoDup_filter, NoDup_fst_map_to_list.
Qed.

(** X9. After a label confirm that goes on, the saved paths are the
    entries of the label's directory that match the pattern, each once,
    sorted as text; so the path an undo would take next is the greatest
    name in text order, not the highest index. *)
Theorem resume_list_sorted f (n : Time) s w s' w' :
  is_label_confirm KEY_ENTER s ->
  key_step KEY_ENTER f n s w = Continue s' w' ->
  StronglySorted path_le (saved_files s') /\ NoDup (saved_files s') /\
  (forall p, p ∈ saved_files s' <->
     parent p = Py.strip (text_buf s) /\ is_Some (files w !! p) /\
     clip_pattern (Py.strip (text_buf s)) (name p) = true) /\
  (forall last rest, saved_files s' = rest ++ [last] ->
     forall p, p ∈ saved_files s' -> path_le p last).
Proof.
  intros Hconfirm Hstep. rewrite key_step_confirm_label in Hstep by exact Hconfirm.
  assert (Hfiles : saved_files s' = existing_clips (Py.strip (text_buf s)) w).
  { destruct (confirm_label_cases s w)
      as [(Hnil & s1 & w1 & E & _ & _ & _ & Hf & _)
         |[(_ & m & s1 & w1 & _ & E & _ & _ & _ & Hf & _)|(_ & e & w1 & _ & E)]];
      rewrite E in Hstep; [| |discriminate]; injection Hstep as <- <-;
      congruence. }
  rewrite Hfiles. set (l := Py.strip (text_buf s)).
  assert (Hsorted : StronglySorted path_le (existing_clips l w)).
  { unfold existing_clips. apply StronglySorted_merge_sort; apply _. }
  split; [exact Hsorted|]. split; [|split].
  - unfold existing_clips. rewrite merge_sort_Permutation.
    apply NoDup_fmap_2; [intros a b [= ->]; reflexivity|].
    apply NoDup_filter, listdir_NoDup.
  - intros p. rewrite existing_clips_elem. split.
    + intros (nm & -> & Hin & Hpat). apply listdir_elem in Hin. auto.
    + intros (Hpar & Hthere & Hpat). destruct p as [d nm]. cbn in *. subst d.
      exists nm. split; [reflexivity|]. split; [|exact Hpat].
      apply listdir_elem, Hthere.
  - intros last rest Hsplit p Hp. rewrite Hsplit in Hsorted, Hp.
    apply elem_of_app in Hp as [Hp|Hp%list_elem_of_singleton].
    + apply (StronglySorted_app_1_elem_of _ _ _ _ _ Hsorted Hp). left.
    + subst p. reflexivity.
Qed.

End ResumeMore.

(** ** Along the loop *)

Section LoopMore.

Context {Frame Time Landmarks : Type}.
Context (D : Display Frame Time Landmarks) (flip : Frame -> Frame).
Implicit Types (s : Session Frame Time) (w : World Frame).
Implicit Types (tk : Tick Frame Time Landmarks).

Lemma key_step_Break key f (n : Time) s w s' w' :
  key_step key f n s w = Break s' w' ->
  s' = s /\ w' = w /\ (key = KEY_q \/ key = KEY_Q).
Proof.
  unfold key_step.
  destruct (Z.eqb_spec key KEY_q) as [->|_]; [intros [= <- <-]; auto|].
  destruct (Z.eqb_spec key KEY_Q) as [->|_]; [intros [= <- <-]; auto|].
  cbn [orb]. intros Hstep. exfalso.
  destruct (state s) eqn:Hs.
  - unfold text_input_key in Hstep. rewrite Hs in Hstep. mode_tests Hstep.
    cbn [andb] in Hstep.
    destruct (key =? KEY_ENTER).
    + destruct (Py.nonempty _); [|discriminate].
      destruct (confirm_label_cases s w)
        as [(_ & s1 & w1 & E & _)|[(_ & m & s1 & w1 & _ & E & _)|(_ & e & w1 & _ & E)]];
        congruence.
    + destruct (Py.Z_in _ _); [discriminate|]. destruct (_ && _); discriminate.
  - unfold text_input_key in Hstep. rewrite Hs in Hstep. mode_tests Hstep.
    cbn [andb] in Hstep.
    destruct (key =? KEY_ENTER).
    + destruct (Py.isdigit _); [|discriminate].
      unfold confirm_count in Hstep. destruct (Py.int _); discriminate.
    + destruct (Py.Z_in _ _); [discriminate|]. destruct (_ && _); [|discriminate].
      destruct (Py.isdigit _); discriminate.
  - unfold idle_key in Hstep. destruct (_ =? _); [discriminate|].
    destruct (Py.Z_in _ _); [|discriminate].
    unfold undo, path_exists in Hstep.
    destruct (pop _) as [[last rest]|]; [|discriminate].
    destruct (bool_decide _); discriminate.
  - unfold recording_key in Hstep. destruct (_ =? _); discriminate.
  - unfold review_key in Hstep. destruct (_ || _).
    + destruct (save_effect s w) as (s1 & w1 & E & _). congruence.
    + destruct (_ =? _); discriminate.
Qed.

Lemma typed_text_rendered c s : typed_text s -> typed_text (rendered flip c s).
Proof.
  unfold rendered. destruct (bool_decide _); [|auto].
  intros (Ht & Hl & Hd). repeat split; auto.
Qed.

(** A property of sessions that the key handling and the recording
    branch keep holds along every run. *)
Lemma run_invariant (P : Session Frame Time -> Prop) :
  (forall key f (n : Time) s w s' w',
     key_step key f n s w = Continue s' w' -> P s -> P s') ->
  (forall c s, P s -> P (rendered flip c s)) ->
  forall ticks s w s',
    P s -> session_of (run flip ticks s w) = Some s' -> P s'.
Proof.
  intros Hkey Hrender.
  assert (Hiter : forall tk s w s',
            session_of (iteration flip tk s w) = Some s' -> P s -> P s').
  { intros tk s w s' Hout Hinv.
    destruct (cam_read tk) as [c|] eqn:Hc.
    - destruct (iteration_captured D flip tk c s w Hc) as [f E].
      rewrite E in Hout. fold (rendered flip c s) in Hout.
      destruct (key_step _ _ _ _ _) as [s1 w1|s1 w1|] eqn:Hstep; [| |discriminate];
        injection Hout as <-.
      + eapply Hkey; [exact Hstep|]. apply Hrender, Hinv.
      + apply key_step_Break in Hstep as (-> & _). apply Hrender, Hinv.
    - unfold iteration in Hout. rewrite Hc in Hout. injection Hout as <-.
      exact Hinv. }
  induction ticks as [|tk ticks IH]; intros s w0 s' Hinv Hout; cbn [run] in Hout.
  - injection Hout as <-. exact Hinv.
  - destruct (iteration flip tk s w0) as [s1 w1|s1 w1|] eqn:E.
    + apply (IH s1 w1); [|exact Hout].
      apply (Hiter tk s w0); [rewrite E; reflexivity|exact Hinv].
    + apply (Hiter tk s w0); [rewrite E; exact Hout|exact Hinv].
    + discriminate.
Qed.

Lemma typed_text_initial (t0 : Time) : typed_text (Frame:=Frame) (initial t0).
Proof. repeat split. Qed.

(** X10. Along every run of the loop from the initial session, whatever
    the camera, the detector and the keyboard deliver, the text buffer and
    the label hold only characters with codes 33..126 other than [q] and
    [Q] (so no blank), and in count entry the buffer holds only decimal
    digits. *)
Theorem typed_text_run ticks (t0 : Time) w s' :
  session_of (run flip ticks (initial t0) w) = Some s' -> typed_text s'.
Proof.
  apply (run_invariant typed_text).
  - intros key f n s w0 s1 w1. apply typed_text_key_step.
  - apply typed_text_rendered.
  - apply typed_text_initial.
Qed.

Lemma pressed_range tk : 0 <= pressed tk < 256.
Proof.
  unfold pressed. change 255 with (Z.ones 8). rewrite Z.land_ones by lia.
  apply Z.mod_pos_bound. lia.
Qed.

Lemma no_key_pressed tk : wait_key tk = -1 -> pressed tk = 255.
Proof. unfold pressed. intros ->. reflexivity. Qed.

(** A key code of 128 or more is bound in no mode. *)
Lemma key_step_unbound key f (n : Time) s w :
  128 <= key -> key_step key f n s w = Continue s w.
Proof.
  intros Hk. unfold key_step.
  destruct (Z.eqb_spec key KEY_q) as [E|_]; [change KEY_q with 113 in E; lia|].
  destruct (Z.eqb_spec key KEY_Q) as [E|_]; [change KEY_Q with 81 in E; lia|].
  cbn [orb].
  assert (Htext : text_input_key key s w = Continue s w).
  { unfold text_input_key.
    destruct (Z.eqb_spec key KEY_ENTER) as [E|_]; [unfold KEY_ENTER in E; lia|].
    unfold Py.Z_in. cbn [existsb].
    destruct (Z.eqb_spec key 8); [lia|]. destruct (Z.eqb_spec key 127); [lia|].
    cbn [orb]. destruct (Z.ltb_spec key 127); [lia|].
    rewrite andb_false_r. reflexivity. }
  destruct (state s); try exact Htext.
  - unfold idle_key.
    destruct (Z.eqb_spec key KEY_SPACE) as [E|_]; [change KEY_SPACE with 32 in E; lia|].
    unfold Py.Z_in. cbn [existsb].
    destruct (Z.eqb_spec key KEY_u) as [E|_]; [change KEY_u with 117 in E; lia|].
    destruct (Z.eqb_spec key KEY_U) as [E|_]; [change KEY_U with 85 in E; lia|].
    reflexivity.
  - unfold recording_key.
    destruct (Z.eqb_spec key KEY_SPACE) as [E|_]; [change KEY_SPACE with 32 in E; lia|].
    reflexivity.
  - unfold review_key.
    destruct (Z.eqb_spec key KEY_o) as [E|_]; [change KEY_o with 111 in E; lia|].
    destruct (Z.eqb_spec key KEY_O) as [E|_]; [change KEY_O with 79 in E; lia|].
    destruct (Z.eqb_spec key KEY_SPACE) as [E|_]; [change KEY_SPACE with 32 in E; lia|].
    reflexivity.
Qed.

(** X11. An iteration in which no key is pressed ([waitKey] returns -1),
    or the key has a code of 128 or more, shows one frame and changes
    nothing else, except that in recording the mirrored camera frame joins
    the buffer. *)
Theorem iteration_without_key tk c s w :
  cam_read tk = Some c -> wait_key tk = -1 \/ 128 <= pressed tk ->
  exists f,
    iteration flip tk s w = Continue (rendered flip c s) (imshow f w) /\
    (state s <> STATE_RECORDING -> rendered flip c s = s) /\
    (state s = STATE_RECORDING ->
       raw_frames (rendered flip c s) = raw_frames s ++ [flip c]).
Proof.
  intros Hc Hk.
  assert (Hp : 128 <= pressed tk)
    by (destruct Hk as [Hk|Hk]; [rewrite (no_key_pressed tk Hk); lia|exact Hk]).
  destruct (iteration_captured D flip tk c s w Hc) as [f E].
  exists f. rewrite E. fold (rendered flip c s).
  rewrite key_step_unbound by exact Hp. split; [reflexivity|].
  unfold rendered. split; intros Hs.
  - rewrite bool_decide_eq_false_2 by exact Hs. reflexivity.
  - rewrite bool_decide_eq_true_2 by exact Hs. reflexivity.
Qed.

(** X12. The loop ends at once when the camera delivers no frame (nothing
    is drawn or changed) and when [q] or [Q] is pressed in any mode (the
    frame is shown, nothing is written, a pending buffer is not saved);
    the iterations that would follow are not run. *)
Theorem loop_ends tk rest s w :
  (cam_read tk = None -> run flip (tk :: rest) s w = Break s w) /\
  (forall c, cam_read tk = Some c ->
     pressed tk = KEY_q \/ pressed tk = KEY_Q ->
     exists f, run flip (tk :: rest) s w = Break (rendered flip c s) (imshow f w) /\
               same_outside (imshow f w) w) /\
  (forall pre s' w', run flip pre s w = Break s' w' ->
     run flip (pre ++ tk :: rest) s w = Break s' w').
Proof.
  split; [|split].
  - intros Hc. cbn [run]. unfold iteration. rewrite Hc. reflexivity.
  - intros c Hc Hk. destruct (iteration_captured D flip tk c s w Hc) as [f E].
    exists f. cbn [run]. rewrite E. fold (rendered flip c s). unfold key_step.
    split; [|reflexivity].
    destruct Hk as [-> | ->]; reflexivity.
  - intros pre s' w' Hrun. rewrite run_app, Hrun. reflexivity.
Qed.

End LoopMore.

(** ** The directory of the label *)

Section OwnPaths.

Context {Frame Time : Type}.
Implicit Types (s : Session Frame Time) (w : World Frame).




End OwnPaths.

Section OwnPathsRun.

Context {Frame Time Landmarks : Type}.
Context (D : Display Frame Time Landmarks) (flip : Frame -> Frame).


End OwnPathsRun.

(** ** Layout of the drawing helpers *)

Section LayoutFacts.

Variable text_width : string -> Z -> Z -> Z.

Lemma imap_lookup {A B} (g : nat -> A -> B) (l : list A) i x :
  l !! i = Some x -> imap g l !! i = Some (g i x).
Proof.
  revert g i. induction l as [|a l IH]; intros g i; [discriminate|].
  destruct i as [|i]; simpl.
  - intros [= ->]. reflexivity.
  - intros H. apply (IH (g ∘ S) i H).
Qed.

(** X15. [draw_controls] stacks the hint lines from the bottom edge: the
    bar ends at the bottom of the frame, the last line's baseline is 12
    pixels above it, each earlier line 18 pixels higher, all of them
    inside the bar and 14 pixels from the left. *)
Theorem controls_from_bottom (fh : Z) (lines : list string) :
  let n := Z.of_nat (length lines) in
  (exists bar_y bar_h alpha,
     controls_calls fh lines !! 0%nat = Some (DarkBar bar_y bar_h alpha) /\
     bar_y + bar_h = fh /\ bar_h = 18 * n + 16) /\
  length (controls_calls fh lines) = S (length lines) /\
  forall i line, lines !! i = Some line ->
    let y := fh - 12 - 18 * (n - 1 - Z.of_nat i) in
    controls_calls fh lines !! S i = Some (Text line 14 y) /\
    fh - (18 * n + 16) < y <= fh - 12.
Proof.
  intros n. unfold controls_calls. fold n. split; [|split].
  - eexists _, _, _. split; [reflexivity|]. lia.
  - simpl. rewrite length_imap. reflexivity.
  - intros i line Hi. pose proof (lookup_lt_Some _ _ _ Hi) as Hlt.
    cbv zeta. split; [|subst n; lia].
    simpl. rewrite (imap_lookup _ _ _ _ Hi). f_equal. f_equal. subst n. lia.
Qed.

(** X16. [draw_text_centered] leaves margins that differ by at most one
    pixel, the right one never the smaller; this holds also for a text
    wider than the frame, whose left end then lies off the frame. *)
Theorem text_centered_margins (fw : Z) (text : string) (y scale thickness : Z) :
  exists x,
    text_centered_calls text_width fw text y scale thickness = [Text text x y] /\
    let left := x in
    let right := fw - (x + text_width text scale thickness) in
    0 <= right - left <= 1 /\
    (fw < text_width text scale thickness -> x < 0).
Proof.
  unfold text_centered_calls. eexists. split; [reflexivity|].
  set (d := fw - text_width text scale thickness).
  pose proof (Z.div_mod d 2 ltac:(lia)) as E.
  pose proof (Z.mod_pos_bound d 2 ltac:(lia)) as B.
  cbv zeta. split; [lia|]. intros Hw.
  assert (d / 2 < 0) by (apply Z.div_lt_upper_bound; lia). assumption.
Qed.

Lemma length_snoc_char (t : string) (c : ascii) :
  String.length (t +:+ String c "") = S (String.length t).
Proof. rewrite PyFacts.length_append. simpl. lia. Qed.

(** X17. [draw_input_prompt] draws a bar 120 pixels high whose middle is
    within one pixel of the middle of the frame, the prompt and the entry
    on baselines inside that bar, and as entry the buffer followed by
    exactly one cursor character in either phase of the blink. *)
Theorem input_prompt_inside_bar (fh fw : Z) (prompt text_buf : string)
    (cursor_on : bool) :
  exists bar_y x1 x2 display,
    input_prompt_calls text_width fh fw prompt text_buf cursor_on
      = [DarkBar bar_y 120 90; Text prompt x1 (bar_y + 40);
         Text display x2 (bar_y + 85)] /\
    0 <= fh - 2 * (bar_y + 60) <= 1 /\
    display = text_buf +:+ (if cursor_on then "|" else " ") /\
    String.length display = S (String.length text_buf).
Proof.
  unfold input_prompt_calls, text_centered_calls. eexists _, _, _, _.
  split; [reflexivity|]. split; [|split; [reflexivity|]].
  - change (120 / 2) with 60.
    pose proof (Z.div_mod fh 2 ltac:(lia)) as E.
    pose proof (Z.mod_pos_bound fh 2 ltac:(lia)) as B. lia.
  - destruct cursor_on; apply length_snoc_char.
Qed.

End LayoutFacts.

(** ** The build command *)

Module BuildAppFacts.

Import BuildApp.

Section CommandFacts.

Variable exists_dir : string -> bool.
Variable child : string -> string -> string.

Lemma find_mediapipe_data_filter (mp_root : string) :
  find_mediapipe_data exists_dir child mp_root
  = filter (fun sd => exists_dir sd.1 = true) (candidates child mp_root).
Proof.
  unfold find_mediapipe_data, candidates.
  rewrite !filter_cons, filter_nil. cbn [fst].
  destruct (exists_dir (child mp_root "modules")),
           (exists_dir (child mp_root "tasks")),
           (exists_dir (child mp_root "model_maker")); reflexivity.
Qed.

(** X18. [find_mediapipe_data] returns the candidate directories modules,
    tasks and model_maker that exist, in that order and each with its
    destination; a missing directory is skipped without complaint, so the
    result may be empty. *)
Theorem find_mediapipe_data_existing (mp_root : string) :
  sublist (find_mediapipe_data exists_dir child mp_root) (candidates child mp_root) /\
  forall src dest,
    (src, dest) ∈ find_mediapipe_data exists_dir child mp_root <->
    (src, dest) ∈ candidates child mp_root /\ exists_dir src = true.
Proof.
  rewrite find_mediapipe_data_filter. split; [apply sublist_filter|].
  intros src dest. rewrite list_elem_of_filter. cbn [fst]. tauto.
Qed.

Lemma fold_left_extend {A} (g : A -> list string) (l : list A) (cmd : list string) :
  fold_left (fun cmd x => cmd ++ g x) l cmd = cmd ++ flat_map g l.
Proof.
  revert cmd. induction l as [|x l IH]; intros cmd; simpl.
  - rewrite app_nil_r. reflexivity.
  - rewrite IH, <- app_assoc. reflexivity.
Qed.

Lemma flat_map_pairs_lookup {A} (a b : A -> string) (l : list A) (i : nat) (x : A) :
  l !! i = Some x ->
  flat_map (fun x => [a x; b x]) l !! (2 * i)%nat = Some (a x) /\
  flat_map (fun x => [a x; b x]) l !! (2 * i + 1)%nat = Some (b x).
Proof.
  revert i. induction l as [|y l IH]; intros i; [discriminate|].
  destruct i as [|i]; simpl.
  - intros [= ->]. split; reflexivity.
  - intros H. destruct (IH i H) as [H1 H2].
    replace (i + S (i + 0))%nat with (S (2 * i)) by lia. simpl.
    split; [exact H1|]. replace (i + (i + 0) + 1)%nat with (2 * i + 1)%nat by lia.
    exact H2.
Qed.

Lemma length_flat_map_pairs {A} (a b : A -> string) (l : list A) :
  length (flat_map (fun x => [a x; b x]) l) = (2 * length l)%nat.
Proof. induction l as [|y l IH]; simpl; [reflexivity|]. rewrite IH. lia. Qed.

(** X19. The command [build] runs starts with the interpreter, ends with
    the script as its only positional argument, has 21 + 2n arguments for
    n data directories, and passes the i-th directory as the pair
    [--add-data], [src sep dest] at positions 8 + 2i and 9 + 2i, the
    separator being [;] on Windows and [:] elsewhere. *)
Theorem build_cmd_shape (executable : string) (windows : bool)
    (mp_datas : list (string * string)) (script : string) :
  let cmd := build_cmd executable windows mp_datas script in
  let sep := if windows then ";" else ":" in
  cmd !! 0%nat = Some executable /\
  last cmd = Some script /\
  length cmd = (21 + 2 * length mp_datas)%nat /\
  forall i src dest, mp_datas !! i = Some (src, dest) ->
    cmd !! (8 + 2 * i)%nat = Some "--add-data" /\
    cmd !! (9 + 2 * i)%nat = Some (src +:+ sep +:+ dest).
Proof.
  intros cmd sep. subst cmd. unfold build_cmd. fold sep.
  rewrite !fold_left_extend.
  set (base := [executable; "-m"; "PyInstaller"; "--name"; "SLT_DataCollect";
                "--onedir"; "--console"; "--noconfirm"]).
  set (datas := flat_map (fun sd => ["--add-data"; sd.1 +:+ sep +:+ sd.2]) mp_datas).
  assert (Hlen : length datas = (2 * length mp_datas)%nat)
    by apply length_flat_map_pairs.
  split; [reflexivity|]. split; [apply last_snoc|]. split.
  - rewrite !length_app, Hlen. simpl. lia.
  - intros i src dest Hi.
    destruct (flat_map_pairs_lookup (fun _ => "--add-data")
                (fun sd => sd.1 +:+ sep +:+ sd.2) mp_datas i (src, dest) Hi)
      as [H1 H2].
    fold datas in H1, H2. pose proof (lookup_lt_Some _ _ _ Hi) as Hlt.
    rewrite <- !app_assoc.
    split.
    + rewrite lookup_app_r by (simpl; lia).
      rewrite lookup_app_l by (simpl; lia).
      replace (8 + 2 * i - length base)%nat with (2 * i)%nat by (simpl; lia).
      exact H1.
    + rewrite lookup_app_r by (simpl; lia).
      rewrite lookup_app_l by (simpl; lia).
      replace (9 + 2 * i - length base)%nat with (2 * i + 1)%nat by (simpl; lia).
      exact H2.
Qed.

End CommandFacts.

End BuildAppFacts.

(** ** The further properties at sample inputs *)

Lemma quiet_keys_leave_disk_witness :
  files (world_of (key_step (Py.ord "a") 0%nat 0%nat
                     (session STATE_INPUT_LABEL "hell" "" 0 0 [] [])
                     (world_with [("hello", "hello_1.mp4")])))
  = files (world_with [("hello", "hello_1.mp4")]).
Proof.
  apply (quiet_keys_leave_disk (Py.ord "a") 0%nat 0%nat
           (session STATE_INPUT_LABEL "hell" "" 0 0 [] [])
           (world_with [("hello", "hello_1.mp4")])).
  intros [(Hk & _)|[(Hs & _)|(Hs & _)]]; discriminate.
Defined.



Lemma label_entry_enter_witness :
  key_step KEY_ENTER 0%nat 0%nat
    (session STATE_INPUT_LABEL "" "old" 3 1 [] []) (world_with [])
  = Continue (session STATE_INPUT_LABEL "" "old" 3 1 [] []) (world_with []).
Proof.
  apply (label_entry_enter 0%nat 0%nat
           (session STATE_INPUT_LABEL "" "old" 3 1 [] []) (world_with []));
    reflexivity.
Defined.


Lemma undo_deletes_last_witness :
  exists s' w',
    key_step KEY_u 0%nat 0%nat
      (session STATE_IDLE "" "hello" 5 2 [hello 1; hello 2] [])
      (world_with [("hello", "hello_1.mp4"); ("hello", "hello_2.mp4")])
      = Continue s' w' /\
    saved_files s' = [hello 1] /\ saved_count s' = 1 /\
    stdout w' = ["  Undone: deleted hello_2.mp4 (1/5)"].
Proof.
  destruct (undo_deletes_last KEY_u 0%nat 0%nat
              (session STATE_IDLE "" "hello" 5 2 [hello 1; hello 2] [])
              (world_with [("hello", "hello_1.mp4"); ("hello", "hello_2.mp4")])
              (hello 2) [hello 1])
    as (s' & w' & E & _ & Hf & Hc & _ & Hout & _).
  - reflexivity.
  - left. reflexivity.
  - reflexivity.
  - vm_compute. eauto.
  - exists s', w'. split; [exact E|]. split; [exact Hf|]. split; [exact Hc|].
    exact Hout.
Defined.



Lemma resume_list_sorted_witness :
  exists s' w',
    key_step KEY_ENTER 0%nat 0%nat gapped_entry gapped_world = Continue s' w' /\
    NoDup (saved_files s').
Proof.
  eexists _, _. split; [vm_compute; reflexivity|].
  eapply (resume_list_sorted 0%nat 0%nat gapped_entry gapped_world).
  - repeat split.
  - vm_compute. reflexivity.
Defined.

Lemma typed_text_run_witness :
  exists s',
    session_of (run (H:=marking) (λ f, (f + 100)%nat)
                  [tick 1 [] (Py.ord "h"); tick 2 [] 32; tick 3 [] (Py.ord "i");
                   tick 4 [] 13; tick 5 [] (Py.ord "x"); tick 6 [] (Py.ord "2")]
                  (initial 0%nat) (world_with [])) = Some s' /\
    typed_text s'.
Proof.
  eexists. split; [vm_compute; reflexivity|].
  eapply (typed_text_run marking (λ f, (f + 100)%nat)
            [tick 1 [] (Py.ord "h"); tick 2 [] 32; tick 3 [] (Py.ord "i");
             tick 4 [] 13; tick 5 [] (Py.ord "x"); tick 6 [] (Py.ord "2")]
            0%nat (world_with [])).
  vm_compute. reflexivity.
Defined.

Lemma iteration_without_key_witness :
  exists f,
    iteration (H:=marking) (λ f, (f + 100)%nat) (tick 4 [9%nat] (-1))
      (session STATE_RECORDING "" "hello" 5 0 [] [103%nat]) (world_with [])
    = Continue (rendered (λ f, (f + 100)%nat) 4%nat
                  (session STATE_RECORDING "" "hello" 5 0 [] [103%nat]))
               (imshow f (world_with [])).
Proof.
  destruct (iteration_without_key marking (λ f, (f + 100)%nat) (tick 4 [9%nat] (-1))
              4%nat (session STATE_RECORDING "" "hello" 5 0 [] [103%nat])
              (world_with []))
    as (f & E & _).
  - reflexivity.
  - left. reflexivity.
  - exists f. exact E.
Defined.


